(** * OCR PDF Extractor: a shallow embedding of [main.py]

    The script is a linear orchestration around external libraries
    (pdfplumber, pdf2image/Poppler, pytesseract, PyMuPDF, FPDF, Streamlit).
    The libraries are taken as oracles gathered in a [World]; the control
    flow of the script (the try/except scopes, the accumulator
    [extracted_text], the temporary files) is embedded in a small
    state-and-exception monad in which a raised exception keeps the state
    reached so far, as in Python. *)

From Stdlib Require Import String Ascii Strings.Byte Sorted.
From stdpp Require Import base option list gmap strings pretty.

Set Default Proof Using "Type".

(** ** Python values *)

(** A Python [str] is a sequence of Unicode code points; a [bytes] object
    is a sequence of bytes; a file-system path is a [str]. *)
Abbreviation char := N (only parsing).
Abbreviation pystr := (list N) (only parsing).
Abbreviation bytes := (list Byte.byte) (only parsing).
Abbreviation path := (list N) (only parsing).

(** A string literal of the source, as code points. *)
Definition lit (s : string) : pystr := N_of_ascii <$> list_ascii_of_string s.

(** A bytes literal of the source. *)
Definition blit (s : string) : bytes := list_byte_of_string s.

Definition NL : char := 10%N.
Definition bNL : Byte.byte := Byte.x0a.

(** [str.isspace] on one code point: the characters [str.strip()] removes. *)
Definition isspace (c : char) : bool :=
  (((9 <=? c) && (c <=? 13)) || ((28 <=? c) && (c <=? 32))
   || (c =? 133) || (c =? 160) || (c =? 5760)
   || ((8192 <=? c) && (c <=? 8202))
   || (c =? 8232) || (c =? 8233) || (c =? 8239) || (c =? 8287)
   || (c =? 12288))%N.

Fixpoint lstrip (s : pystr) : pystr :=
  match s with
  | [] => []
  | c :: r => if isspace c then lstrip r else s
  end.

Definition rstrip (s : pystr) : pystr := reverse (lstrip (reverse s)).

(** [s.strip()] *)
Definition strip (s : pystr) : pystr := rstrip (lstrip s).

(** Truth value of a string: non-empty. *)
Definition truthy (s : pystr) : bool :=
  match s with [] => false | _ => true end.

(** [len(s)] *)
Definition len (s : pystr) : nat := length s.

(** [str(n)] for a non-negative integer. *)
Definition str_of_nat (n : nat) : pystr := lit (pretty n).

(** [text.split('\n')]: never the empty list. *)
Fixpoint split_nl (s : pystr) : list pystr :=
  match s with
  | [] => [[]]
  | c :: r =>
      if (c =? NL)%N then [] :: split_nl r
      else match split_nl r with
           | [] => [[c]]
           | l :: ls => (c :: l) :: ls
           end
  end.

(** The marker of the page at 0-based index [i], as both loops write it:
    [f"\n--- Page {i+1} ---\n"]. *)
Definition page_marker (i : nat) : pystr :=
  [NL] ++ lit "--- Page " ++ str_of_nat (i + 1) ++ lit " ---" ++ [NL].

(** [f"\n--- Page {i+1} ---\n{page_text}"] *)
Definition page_chunk (i : nat) (page_text : pystr) : pystr :=
  page_marker i ++ page_text.

(** ** Exceptions and the monad *)

(** An exception (a subclass of [Exception]) with its [str(e)]. *)
Definition exn := string.

Inductive outcome (A : Type) : Type :=
  | Ret (a : A)
  | Raise (e : exn).
Arguments Ret {A} a.
Arguments Raise {A} e.

Definition is_raise {A} (o : outcome A) : bool :=
  match o with Raise _ => true | Ret _ => false end.

(** A computation over a mutable state [S]: it returns or raises, and in
    both cases leaves a state behind. *)
Definition py (S A : Type) : Type := S → outcome A * S.

Definition py_ret {S A} (a : A) : py S A := λ s, (Ret a, s).

Definition py_bind {S A B} (m : py S A) (k : A → py S B) : py S B :=
  λ s, match m s with
       | (Ret a, s') => k a s'
       | (Raise e, s') => (Raise e, s')
       end.

(** [raise e] *)
Definition py_raise {S A} (e : exn) : py S A := λ s, (Raise e, s).

(** [try: m  except Exception as e: h e] *)
Definition try_except {S A} (m : py S A) (h : exn → py S A) : py S A :=
  λ s, match m s with
       | (Ret a, s') => (Ret a, s')
       | (Raise e, s') => h e s'
       end.

(** The result of a library call, lifted. *)
Definition call {S A} (o : outcome A) : py S A := λ s, (o, s).

Definition exec {S A} (m : py S A) (s : S) : S := (m s).2.
Definition result {S A} (m : py S A) (s : S) : outcome A := (m s).1.

Declare Scope py_scope.
Delimit Scope py_scope with py.
Notation "x <- m ;; k" := (py_bind m (λ x, k))
  (at level 100, m at next level, right associativity) : py_scope.
Notation "m ;; k" := (py_bind m (λ _, k))
  (at level 100, right associativity) : py_scope.
Notation "'pass'" := (py_ret tt) : py_scope.
Local Open Scope py_scope.

(** ** The world outside the script *)

(** A PIL image object returned by the rasterizer, by identity. *)
Abbreviation image := N (only parsing).

(** The options of the "OCR Language" select box. *)
Inductive lang := eng | fra | deu | spa | ita | por | chi_sim | jpn | kor.

(** The sidebar configuration. *)
Record Config := {
  poppler_path : pystr;
  tesseract_path : pystr;
  ocr_dpi : nat;
  ocr_lang : lang;
  fallback_all_pages : bool;
}.

(** [uploaded_file]: its [.name] and the bytes [.read()] returns. *)
Record Upload := {
  name : pystr;
  file_bytes : bytes;
}.

Inductive io_op := IoOpenW | IoWrite | IoRead | IoRemove.

(** What the libraries and the operating system answer. Every call may
    return or raise. *)
Record World := {
  (** [os.path.join(tempfile.gettempdir(), "test.pdf")] *)
  test_file : path;
  (** the name [tempfile.NamedTemporaryFile(delete=False, suffix=".pdf")] picks *)
  named_temporary_file : path;
  (** an I/O error the operating system injects into a file operation *)
  io_fault : io_op → path → option exn;
  (** [len(fitz.open(path))] on the file's contents *)
  fitz_len : bytes → outcome nat;
  (** [pdfplumber.open(path).pages], each page with what its
      [extract_text()] will answer: a string, [None], or an exception *)
  pdfplumber_pages : bytes → outcome (list (outcome (option pystr)));
  (** [convert_from_bytes(data, dpi=, first_page=, last_page=, poppler_path=)] *)
  convert_from_bytes :
    bytes → nat → option (nat * nat) → option pystr → outcome (list image);
  (** [pytesseract.image_to_string(image, lang=)] *)
  image_to_string : image → lang → outcome pystr;
}.

(** ** What the user sees, and what the script calls *)

Inductive message :=
  | info_processing
  | info_page_count (page_count : nat)
  | warning_page_count (e : exn)
  | success_native
  | warning_native (e : exn)
  | warning_switch_ocr
  | error_poppler_missing
  | success_converted (n : nat)
  | progress_start
  | progress (done total : nat)
  | info_processed (page total : nat)
  | error_ocr_page (page : nat) (e : exn)
  | progress_empty
  | error_ocr (e : exn)
  | success_complete
  | text_area (text : pystr)
  | download_text (text : pystr)
  | download_pdf (data : bytes)
  | error_pdf (e : exn)
  | error_failed
  | tips.

Inductive event :=
  | Ui (m : message)
  | FitzOpen (p : path)
  | PlumberOpen (p : path)
  | ExtractText (i : nat)
  | Preflight (custom_path : option pystr)
  | ConvertFromBytes (data : bytes) (dpi : nat)
      (first_last : option (nat * nat)) (pp : option pystr)
  | ImageToString (img : image) (l : lang)
  | OsRemove (p : path).

(** The mutable state of one run: the file system, the calls and messages
    so far, and the accumulator variable [extracted_text]. *)
Record state := {
  fs : gmap path bytes;
  trace : list event;
  extracted_text : pystr;
}.

Definition with_fs (f : gmap path bytes → gmap path bytes) (s : state) : state :=
  {| fs := f (fs s); trace := trace s; extracted_text := extracted_text s |}.

Definition with_text (f : pystr → pystr) (s : state) : state :=
  {| fs := fs s; trace := trace s; extracted_text := f (extracted_text s) |}.

Definition emit (ev : event) : py state unit :=
  λ s, (Ret tt,
        {| fs := fs s; trace := trace s ++ [ev];
           extracted_text := extracted_text s |}).

(** A Streamlit call: [st.info], [st.warning], [st.error], a widget. *)
Definition st (m : message) : py state unit := emit (Ui m).

Definition get_text : py state pystr := λ s, (Ret (extracted_text s), s).

(** [extracted_text = t] *)
Definition set_text (t : pystr) : py state unit :=
  λ s, (Ret tt, with_text (λ _, t) s).

(** [extracted_text += t] *)
Definition append_text (t : pystr) : py state unit :=
  λ s, (Ret tt, with_text (λ old, old ++ t) s).

(** ** The FPDF library, as [create_pdf_from_text] uses it *)

(** The calls made on the [FPDF] object. The calls that receive text, and
    the final output, may raise; a raising call leaves the object in some
    state of the library's choosing. *)
Class FPDF (doc : Type) := {
  FPDF_new : doc;
  add_page : doc → doc;
  set_font : string → string → nat → doc → doc;
  cell : nat → nat → pystr → py doc unit;
  ln : nat → doc → doc;
  multi_cell : nat → nat → pystr → py doc unit;
  output_S : py doc pystr;
}.

(** A method that cannot raise. *)
Definition method {S} (f : S → S) : py S unit := λ s, (Ret tt, f s).

(** The code points Latin-1 can encode. *)
Definition latin1 (c : char) : bool := (c <? 256)%N.

(** [s.encode('latin-1')] *)
Definition encode_latin1 (s : pystr) : outcome bytes :=
  if forallb latin1 s
  then Ret (omap Byte.of_N s)
  else Raise "UnicodeEncodeError".

(** The line written in place of a line that fails to render. *)
Definition placeholder : pystr := lit "[Content with special characters removed]".

Section create_pdf.
Context {doc : Type} `{!FPDF doc}.

(** The body of the loop over [lines]. *)
Definition render_line (line : pystr) : py doc unit :=
  if Nat.ltb 0 (len line) then
    try_except (multi_cell 0 5 line)
               (λ _, multi_cell 0 5 placeholder)
  else pass.

Fixpoint render_lines (lines : list pystr) : py doc unit :=
  match lines with
  | [] => pass
  | line :: rest => render_line line ;; render_lines rest
  end.

Definition create_pdf_body (text title : pystr) : py doc bytes :=
  method add_page ;;
  method (set_font "Arial" "" 12) ;;
  method (set_font "Arial" "B" 16) ;;
  cell 200 10 title ;;
  method (ln 10) ;;
  method (set_font "Arial" "" 12) ;;
  render_lines (split_nl text) ;;
  s <- output_S ;;
  call (encode_latin1 s).

(** [create_pdf_from_text(text, title)]: what it returns or raises. *)
Definition create_pdf_from_text (text title : pystr) : outcome bytes :=
  result (create_pdf_body text title) FPDF_new.
End create_pdf.

(** ** The script *)

Section script.
Context (w : World) {doc : Type} `{!FPDF doc}.

(** The I/O error of the world, if any, raised by a file operation. *)
Definition fault (op : io_op) (p : path) : py state unit :=
  λ s, match io_fault w op p with
       | Some e => (Raise e, s)
       | None => (Ret tt, s)
       end.

(** [open(p, "wb")]: creates or truncates the file. *)
Definition open_wb (p : path) : py state unit :=
  fault IoOpenW p ;; method (with_fs (insert p [])).

(** [f.write(data)] on a file just opened for writing. *)
Definition f_write (p : path) (data : bytes) : py state unit :=
  fault IoWrite p ;; method (with_fs (insert p data)).

(** [open(p, "rb").read()] *)
Definition read (p : path) : py state bytes :=
  fault IoRead p ;;
  λ s, match fs s !! p with
       | Some data => (Ret data, s)
       | None => (Raise "FileNotFoundError", s)
       end.

(** [os.remove(p)], which is also [os.unlink(p)]. *)
Definition os_remove (p : path) : py state unit :=
  emit (OsRemove p) ;;
  fault IoRemove p ;;
  λ s, match fs s !! p with
       | Some _ => (Ret tt, with_fs (delete p) s)
       | None => (Raise "FileNotFoundError", s)
       end.

(** A call of [convert_from_bytes]. *)
Definition convert (data : bytes) (dpi : nat) (first_last : option (nat * nat))
    (pp : option pystr) : py state (list image) :=
  emit (ConvertFromBytes data dpi first_last pp) ;;
  call (convert_from_bytes w data dpi first_last pp).

(** The synthetic one-page document of the preflight. *)
Definition test_pdf : bytes :=
  blit "%PDF-1.7" ++ [bNL]
  ++ blit "1 0 obj<</Type/Catalog/Pages 2 0 R>>endobj 2 0 obj<</Type/Pages/Kids[3 0 R]/Count 1>>endobj 3 0 obj<</Type/Page/MediaBox[0 0 3 3]>>endobj"
  ++ [bNL] ++ blit "xref" ++ [bNL] ++ blit "0 4" ++ [bNL]
  ++ blit "0000000000 65535 f" ++ [bNL]
  ++ blit "0000000010 00000 n" ++ [bNL]
  ++ blit "0000000053 00000 n" ++ [bNL]
  ++ blit "0000000102 00000 n" ++ [bNL] ++ [bNL]
  ++ blit "trailer<</Size 4/Root 1 0 R>>" ++ [bNL]
  ++ blit "startxref" ++ [bNL] ++ blit "149" ++ [bNL]
  ++ blit "%EOF" ++ [bNL].

(** "Check for Poppler installation" *)
Definition is_poppler_installed (custom_path : option pystr) : py state bool :=
  emit (Preflight custom_path) ;;
  try_except
    (open_wb (test_file w) ;;
     f_write (test_file w) test_pdf ;;
     data <- read (test_file w) ;;
     convert data 200 (Some (1, 1)) custom_path ;;
     os_remove (test_file w) ;;
     py_ret true)
    (λ _, py_ret false).

(** [poppler_path if poppler_path else None] *)
Definition or_None (p : pystr) : option pystr :=
  if truthy p then Some p else None.

Section run.
Context (cfg : Config) (uploaded_file : Upload) (tmp_pdf_path : path).

(** "Try to get page count" *)
Definition page_count_probe : py state unit :=
  try_except
    (emit (FitzOpen tmp_pdf_path) ;;
     data <- read tmp_pdf_path ;;
     page_count <- call (fitz_len w data) ;;
     st (info_page_count page_count))
    (λ e, st (warning_page_count e)).

(** [for i, page in enumerate(pdf.pages)], from index [i] on. *)
Fixpoint native_loop (pages : list (outcome (option pystr))) (i : nat)
  : py state unit :=
  match pages with
  | [] => pass
  | page :: rest =>
      emit (ExtractText i) ;;
      extracted <- call page ;;
      let page_text := default [] extracted in
      (if truthy (strip page_text)
       then append_text (page_chunk i page_text)
       else pass) ;;
      native_loop rest (S i)
  end.

(** "First try pdfplumber (for text-based PDFs)" *)
Definition native_extraction : py state unit :=
  try_except
    (emit (PlumberOpen tmp_pdf_path) ;;
     data <- read tmp_pdf_path ;;
     pages <- call (pdfplumber_pages w data) ;;
     native_loop pages 0 ;;
     t <- get_text ;;
     if Nat.ltb 100 (len (strip t)) then st success_native else pass)
    (λ e, st (warning_native e) ;; set_text []).

(** [for i, image in enumerate(images)], from index [i] on, [n] being
    [len(images)]. *)
Fixpoint ocr_loop (images : list image) (i n : nat) : py state unit :=
  match images with
  | [] => pass
  | image :: rest =>
      st (progress (i + 1) n) ;;
      try_except
        (emit (ImageToString image (ocr_lang cfg)) ;;
         text <- call (image_to_string w image (ocr_lang cfg)) ;;
         append_text (page_chunk i text) ;;
         st (info_processed (i + 1) n))
        (λ e, st (error_ocr_page (i + 1) e)) ;;
      ocr_loop rest (S i) n
  end.

(** The [else] branch of the preflight test: "Reset text if using OCR". *)
Definition perform_ocr : py state unit :=
  set_text [] ;;
  try_except
    (images <- convert (file_bytes uploaded_file) (ocr_dpi cfg) None
                 (or_None (poppler_path cfg)) ;;
     st (success_converted (length images)) ;;
     st progress_start ;;
     ocr_loop images 0 (length images) ;;
     st progress_empty)
    (λ e, st (error_ocr e)).

(** "If little or no text or forced OCR, use OCR" *)
Definition ocr_fallback : py state unit :=
  t <- get_text ;;
  if Nat.ltb (len (strip t)) 100 || fallback_all_pages cfg then
    st warning_switch_ocr ;;
    poppler_installed <- is_poppler_installed (or_None (poppler_path cfg)) ;;
    if negb poppler_installed
    then st error_poppler_missing
    else perform_ocr
  else pass.

(** "Clean up the temporary file" *)
Definition cleanup : py state unit :=
  try_except (os_remove tmp_pdf_path) (λ _, pass).

(** "Show result" *)
Definition show_result : py state unit :=
  t <- get_text ;;
  (if truthy (strip t) then
     st success_complete ;;
     st (text_area t) ;;
     st (download_text t) ;;
     try_except
       (pdf_bytes <- call (create_pdf_from_text t
                             (lit "Extracted from " ++ name uploaded_file)) ;;
        st (download_pdf pdf_bytes))
       (λ e, st (error_pdf e))
   else st error_failed) ;;
  st tips.

(** "Process with different methods based on settings": the use of
    the temporary copy. *)
Definition processing : py state unit :=
  page_count_probe ;;
  (if negb (fallback_all_pages cfg) then native_extraction else pass) ;;
  ocr_fallback.

(** Everything between the creation of the temporary copy and the end
    of the [if uploaded_file:] block. *)
Definition process : py state unit :=
  processing ;;
  cleanup ;;
  show_result.
End run.

(** The [if uploaded_file:] block. *)
Definition main (cfg : Config) (uploaded_file : option Upload) : py state unit :=
  match uploaded_file with
  | None => pass
  | Some up =>
      st info_processing ;;
      set_text [] ;;
      let tmp_pdf_path := named_temporary_file w in
      open_wb tmp_pdf_path ;;
      f_write tmp_pdf_path (file_bytes up) ;;
      process cfg up tmp_pdf_path
  end.
End script.

(** ** Vocabulary of the specification *)

(** [m] never raises. *)
Definition total {S A} (m : py S A) : Prop := ∀ s, ∃ a, result m s = Ret a.

(** Every run of [m] relates the state it starts in to the state it leaves. *)
Definition preserves {S A} (R : relation S) (m : py S A) : Prop :=
  ∀ s, R s (exec m s).

(** The file system, respectively the accumulator, is left as it was. *)
Definition same_fs : relation state := λ s s', fs s' = fs s.

Definition same_text : relation state :=
  λ s s', extracted_text s' = extracted_text s.

(** The trace only grows, and by events satisfying [Q]. *)
Definition emitting (Q : event → Prop) : relation state :=
  λ s s', ∃ evs, trace s' = trace s ++ evs ∧ Forall Q evs.

(** A call to the OCR engine. *)
Definition ocr_call (ev : event) : Prop :=
  match ev with ImageToString _ _ => True | _ => False end.

(** A call that belongs to the rasterize-then-OCR fallback: the preflight,
    a rasterization, an OCR call. *)
Definition fallback_call (ev : event) : Prop :=
  match ev with
  | Preflight _ | ConvertFromBytes _ _ _ _ | ImageToString _ _ => True
  | _ => False
  end.

(** A call that belongs to native extraction. *)
Definition native_call (ev : event) : Prop :=
  match ev with PlumberOpen _ | ExtractText _ => True | _ => False end.

(** A deletion of a file. *)
Definition remove_call (ev : event) : Prop :=
  match ev with OsRemove _ => True | _ => False end.

(** A Streamlit call. *)
Definition ui_call (ev : event) : Prop :=
  match ev with Ui _ => True | _ => False end.

(** The text written for a list of (0-based page index, page text) pairs. *)
Fixpoint render (chunks : list (nat * pystr)) : pystr :=
  match chunks with
  | [] => []
  | (i, page_text) :: rest => page_chunk i page_text ++ render rest
  end.

(** The exception of the first page whose extraction raises. *)
Fixpoint first_raise {A} (pages : list (outcome A)) : option exn :=
  match pages with
  | [] => None
  | Raise e :: _ => Some e
  | Ret _ :: rest => first_raise rest
  end.

(** The pages native extraction appends, numbered from [i], up to the
    first page that raises. *)
Fixpoint native_chunks (pages : list (outcome (option pystr))) (i : nat)
  : list (nat * pystr) :=
  match pages with
  | [] => []
  | Raise _ :: _ => []
  | Ret extracted :: rest =>
      if truthy (strip (default [] extracted))
      then (i, default [] extracted) :: native_chunks rest (S i)
      else native_chunks rest (S i)
  end.

(** The calls native extraction makes on the pages. *)
Fixpoint native_events (pages : list (outcome (option pystr))) (i : nat)
  : list event :=
  match pages with
  | [] => []
  | Raise _ :: _ => [ExtractText i]
  | Ret _ :: rest => ExtractText i :: native_events rest (S i)
  end.

Section observations.
Context (w : World) (cfg : Config) (up : Upload) (tmp : path).

(** The world injects no error into this file operation. *)
Definition no_fault (op : io_op) (p : path) : bool :=
  match io_fault w op p with None => true | Some _ => false end.

(** The answer of the rasterizer on the synthetic document. *)
Definition probe_rasterization (custom_path : option pystr)
  : outcome (list image) :=
  convert_from_bytes w test_pdf 200 (Some (1, 1)) custom_path.

(** The steps of the probe all go through. *)
Definition preflight_passes (custom_path : option pystr) : bool :=
  no_fault IoOpenW (test_file w) && no_fault IoWrite (test_file w)
  && no_fault IoRead (test_file w)
  && negb (is_raise (probe_rasterization custom_path))
  && no_fault IoRemove (test_file w).

(** The file system the probe leaves behind. *)
Definition preflight_fs (custom_path : option pystr)
    (m : gmap path bytes) : gmap path bytes :=
  if negb (no_fault IoOpenW (test_file w)) then m
  else if negb (no_fault IoWrite (test_file w)) then <[test_file w := []]> m
  else if preflight_passes custom_path then delete (test_file w) m
  else <[test_file w := test_pdf]> m.

(** The pages the OCR loop appends, numbered from [i]: those whose OCR
    call returns. *)
Fixpoint ocr_chunks (images : list image) (i : nat) : list (nat * pystr) :=
  match images with
  | [] => []
  | img :: rest =>
      match image_to_string w img (ocr_lang cfg) with
      | Ret text => (i, text) :: ocr_chunks rest (S i)
      | Raise _ => ocr_chunks rest (S i)
      end
  end.

(** The calls and messages of the OCR loop. *)
Fixpoint ocr_events (images : list image) (i n : nat) : list event :=
  match images with
  | [] => []
  | img :: rest =>
      [Ui (progress (i + 1) n); ImageToString img (ocr_lang cfg);
       match image_to_string w img (ocr_lang cfg) with
       | Ret _ => Ui (info_processed (i + 1) n)
       | Raise e => Ui (error_ocr_page (i + 1) e)
       end] ++ ocr_events rest (S i) n
  end.

(** What [open(p, "rb").read()] answers on a file system. *)
Definition read_result (m : gmap path bytes) (p : path) : outcome bytes :=
  match io_fault w IoRead p with
  | Some e => Raise e
  | None =>
      match m !! p with
      | Some data => Ret data
      | None => Raise "FileNotFoundError"
      end
  end.

(** What [pdfplumber.open(tmp_pdf_path).pages] answers in state [s]. *)
Definition native_pages (s : state)
  : outcome (list (outcome (option pystr))) :=
  match read_result (fs s) tmp with
  | Ret data => pdfplumber_pages w data
  | Raise e => Raise e
  end.


(** The [poppler_path] argument of both rasterizer calls. *)
Definition pp : option pystr := or_None (poppler_path cfg).

(** The condition of the second [if]. *)
Definition fallback_triggered (s : state) : bool :=
  Nat.ltb (len (strip (extracted_text s))) 100 || fallback_all_pages cfg.

(** The rasterization of the upload. *)
Definition rasterization : outcome (list image) :=
  convert_from_bytes w (file_bytes up) (ocr_dpi cfg) None pp.

(** The accumulator the OCR branch leaves: OCR output only. *)
Definition ocr_output : pystr :=
  match rasterization with
  | Ret images => render (ocr_chunks images 0)
  | Raise _ => []
  end.

(** The calls and messages of the OCR branch. *)
Definition ocr_trace : list event :=
  ConvertFromBytes (file_bytes up) (ocr_dpi cfg) None pp ::
  match rasterization with
  | Ret images =>
      [Ui (success_converted (length images)); Ui progress_start]
      ++ ocr_events images 0 (length images) ++ [Ui progress_empty]
  | Raise e => [Ui (error_ocr e)]
  end.

(** The state in which the fallback condition is evaluated: after the
    page-count probe and, unless OCR is forced, native extraction. *)
Definition after_native (s : state) : state :=
  exec (page_count_probe w tmp ;;
        if negb (fallback_all_pages cfg) then native_extraction w tmp else pass) s.

End observations.

(** The texts shown in the "Extracted Text" area. *)
Definition presented (tr : list event) : list pystr :=
  omap (λ ev, match ev with Ui (text_area t) => Some t | _ => None end) tr.

(** ** The FPDF library the script runs on *)

(** PyFPDF 1.7.2 under Python 3, the library whose [output(dest="S")]
    returns the [str] that line 97 encodes. With a core font, [cell] and
    [multi_cell] take any [str] and write it on the current page as it
    is; the page is encoded to Latin-1 only when [output] builds the
    file, and a character outside Latin-1 raises there, in the call made
    after the loop over the lines. The document is the text of its page,
    one drawn text per line; the file is that page between a header and
    a trailer. *)
Definition draw_text (txt : pystr) : py pystr unit :=
  λ page, (Ret tt, page ++ txt ++ [NL]).

Definition build_file : py pystr pystr :=
  λ page, match encode_latin1 page with
          | Ret _ => (Ret (lit "%PDF-1.3" ++ [NL] ++ page ++ lit "%%EOF" ++ [NL]),
                      page)
          | Raise e => (Raise e, page)
          end.

#[global] Instance Latin1Fpdf : FPDF pystr := {|
  FPDF_new := [];
  add_page page := page;
  set_font _ _ _ page := page;
  cell _ _ txt := draw_text txt;
  ln _ page := page;
  multi_cell _ _ txt := draw_text txt;
  output_S := build_file;
|}.

(** What the page holds when [create_pdf_from_text] asks for the output:
    the title, then every non-empty line of the text, each as given. *)
Definition page_of (text title : pystr) : pystr :=
  title ++ [NL]
  ++ concat ((λ line, line ++ [NL]) <$> List.filter truthy (split_nl text)).

(** A text with an ASCII line, a line outside Latin-1 and an ASCII line. *)
Definition mixed_text : pystr :=
  lit "first line" ++ [NL; 20013%N; 25991%N; NL] ++ lit "last line".

(** ** Concrete runs *)

Definition default_config : Config := {|
  poppler_path := [];
  tesseract_path := [];
  ocr_dpi := 300;
  ocr_lang := eng;
  fallback_all_pages := false;
|}.

Definition hello_pdf : Upload := {|
  name := lit "hello.pdf";
  file_bytes := blit "%PDF-1.4";
|}.

(** The state before a run: nothing on disk, nothing shown. *)
Definition fresh : state := {| fs := ∅; trace := []; extracted_text := [] |}.

(** A machine without Poppler: every rasterization raises. The upload has
    one page whose text layer reads "Hello". *)
Definition no_poppler : World := {|
  test_file := lit "/tmp/test.pdf";
  named_temporary_file := lit "/tmp/tmpq7r2x_1k.pdf";
  io_fault _ _ := None;
  fitz_len _ := Ret 1;
  pdfplumber_pages _ := Ret [Ret (Some (lit "Hello"))];
  convert_from_bytes _ _ _ _ := Raise "PDFInfoNotInstalledError";
  image_to_string _ _ := Raise "TesseractNotFoundError";
|}.

(** A machine with Poppler and Tesseract. The upload has one page whose
    text layer is 85 letters, so that the accumulator, stripped, is
    exactly 100 characters long. *)
Definition boundary : World := {|
  test_file := lit "/tmp/test.pdf";
  named_temporary_file := lit "/tmp/tmpq7r2x_1k.pdf";
  io_fault _ _ := None;
  fitz_len _ := Ret 1;
  pdfplumber_pages _ := Ret [Ret (Some (replicate 85 97%N))];
  convert_from_bytes _ _ _ _ := Ret [1%N];
  image_to_string _ _ := Ret (lit "recognized text");
|}.

(** A machine with Poppler and Tesseract, and an upload with one page
    whose text layer is "Hello World " ten times over. *)
Definition text_layer : World := {|
  test_file := lit "/tmp/test.pdf";
  named_temporary_file := lit "/tmp/tmpq7r2x_1k.pdf";
  io_fault _ _ := None;
  fitz_len _ := Ret 1;
  pdfplumber_pages _ := Ret [Ret (Some (concat (replicate 10 (lit "Hello World "))))];
  convert_from_bytes _ _ _ _ := Ret [1%N];
  image_to_string _ _ := Ret (lit "recognized text");
|}.

(** The "Force OCR on all pages" box ticked. *)
Definition force_ocr : Config := {|
  poppler_path := [];
  tesseract_path := [];
  ocr_dpi := 300;
  ocr_lang := eng;
  fallback_all_pages := true;
|}.

(** The state in which [main] starts processing when the temporary copy
    was written: the copy on disk, the first message shown. *)
Definition uploaded (w : World) (up : Upload) : state := {|
  fs := {[ named_temporary_file w := file_bytes up ]};
  trace := [Ui info_processing];
  extracted_text := [];
|}.


(** A scanned upload of three pages without text layer: OCR reads the
    first, fails on the second, and finds only a blank on the third. *)
Definition three_scans : World := {|
  test_file := lit "/tmp/test.pdf";
  named_temporary_file := lit "/tmp/tmpq7r2x_1k.pdf";
  io_fault _ _ := None;
  fitz_len _ := Ret 3;
  pdfplumber_pages _ := Ret [Ret None; Ret (Some [32%N]); Ret None];
  convert_from_bytes _ _ fl _ :=
    match fl with Some _ => Ret [0%N] | None => Ret [1%N; 2%N; 3%N] end;
  image_to_string img _ :=
    if (img =? 2)%N then Raise "TesseractError"
    else if (img =? 3)%N then Ret [32%N]
    else Ret (lit "first page");
|}.

(** ** The events of a run, phase by phase *)

(** A character [str.strip()] keeps. *)
Definition visible (c : char) : Prop := isspace c = false.

(** The images handed to the OCR engine, in the order of the calls. *)
Definition ocr_calls (tr : list event) : list image :=
  omap (λ ev, match ev with ImageToString img _ => Some img | _ => None end) tr.

(** The 0-based indices of the pages given to the text-layer reader, in
    the order of the calls. *)
Definition extract_calls (tr : list event) : list nat :=
  omap (λ ev, match ev with ExtractText i => Some i | _ => None end) tr.

(** The messages shown to the user, in order. *)
Definition messages (tr : list event) : list message :=
  omap (λ ev, match ev with Ui m => Some m | _ => None end) tr.

(** The same world with another page counter. *)
Definition with_fitz_len (f : bytes → outcome nat) (w : World) : World := {|
  test_file := test_file w;
  named_temporary_file := named_temporary_file w;
  io_fault := io_fault w;
  fitz_len := f;
  pdfplumber_pages := pdfplumber_pages w;
  convert_from_bytes := convert_from_bytes w;
  image_to_string := image_to_string w;
|}.

(** A call that uses the sidebar configuration and the upload as given:
    the preflight and both rasterizations receive the configured Poppler
    path, the upload is rasterized whole at the configured DPI, the probe
    rasterizes page 1 of the synthetic document at 200 DPI, and OCR reads
    in the configured language. *)
Definition honours (cfg : Config) (up : Upload) (ev : event) : Prop :=
  match ev with
  | Preflight p => p = or_None (poppler_path cfg)
  | ConvertFromBytes data dpi (Some first_last) p =>
      p = or_None (poppler_path cfg)
      ∧ data = test_pdf ∧ dpi = 200 ∧ first_last = (1, 1)
  | ConvertFromBytes data dpi None p =>
      p = or_None (poppler_path cfg)
      ∧ data = file_bytes up ∧ dpi = ocr_dpi cfg
  | ImageToString _ l => l = ocr_lang cfg
  | _ => True
  end.

(** A progress message whose fraction [done / total] lies in (0, 1]. *)
Definition progress_in_range (ev : event) : Prop :=
  match ev with
  | Ui (progress done total) => 0 < done ∧ done ≤ total
  | _ => True
  end.

Section run_description.
Context (w : World) {doc : Type} `{!FPDF doc}.
Context (cfg : Config) (up : Upload) (tmp : path).

(** The events of the page-count probe on a file system. *)
Definition probe_trace (m : gmap path bytes) : list event :=
  FitzOpen tmp ::
  match read_result w m tmp with
  | Ret data =>
      match fitz_len w data with
      | Ret page_count => [Ui (info_page_count page_count)]
      | Raise e => [Ui (warning_page_count e)]
      end
  | Raise e => [Ui (warning_page_count e)]
  end.

(** The accumulator native extraction leaves when started in [s]. *)
Definition native_text (s : state) : pystr :=
  match native_pages w tmp s with
  | Raise _ => []
  | Ret pages =>
      match first_raise pages with
      | Some _ => []
      | None => extracted_text s ++ render (native_chunks pages 0)
      end
  end.

(** The events of native extraction when started in [s]. *)
Definition native_trace (s : state) : list event :=
  PlumberOpen tmp ::
  match native_pages w tmp s with
  | Raise e => [Ui (warning_native e)]
  | Ret pages =>
      native_events pages 0 ++
      match first_raise pages with
      | Some e => [Ui (warning_native e)]
      | None =>
          if Nat.ltb 100 (len (strip (native_text s)))
          then [Ui success_native] else []
      end
  end.

(** The events of the preflight. *)
Definition preflight_trace (custom_path : option pystr) : list event :=
  Preflight custom_path ::
  if no_fault w IoOpenW (test_file w) && no_fault w IoWrite (test_file w)
     && no_fault w IoRead (test_file w)
  then ConvertFromBytes test_pdf 200 (Some (1, 1)) custom_path ::
       (if is_raise (probe_rasterization w custom_path) then []
        else [OsRemove (test_file w)])
  else [].

(** The events of the fallback when started in [s]. *)
Definition fallback_trace (s : state) : list event :=
  if fallback_triggered cfg s then
    Ui warning_switch_ocr :: preflight_trace (pp cfg) ++
    (if preflight_passes w (pp cfg) then ocr_trace w cfg up
     else [Ui error_poppler_missing])
  else [].

(** The events of the presentation of a final text. *)
Definition show_trace (t : pystr) : list event :=
  (if truthy (strip t)
   then [Ui success_complete; Ui (text_area t); Ui (download_text t);
         match create_pdf_from_text t (lit "Extracted from " ++ name up) with
         | Ret pdf_bytes => Ui (download_pdf pdf_bytes)
         | Raise e => Ui (error_pdf e)
         end]
   else [Ui error_failed]) ++ [Ui tips].

(** The events of the first strategy: the probe, then native extraction
    unless OCR is forced. *)
Definition strategy_a_trace (s : state) : list event :=
  probe_trace (fs s) ++
  (if fallback_all_pages cfg then [] else native_trace s).

(** The events of [process] when started in [s]. *)
Definition process_events (s : state) : list event :=
  strategy_a_trace s
  ++ fallback_trace (after_native w cfg tmp s)
  ++ [OsRemove tmp]
  ++ show_trace (extracted_text (exec (process w cfg up tmp) s)).
End run_description.

(** The number of pages whose extraction is attempted: all of them, or
    those up to and including the first that raises. *)
Fixpoint attempted {A} (pages : list (outcome A)) : nat :=
  match pages with
  | [] => 0
  | Raise _ :: _ => 1
  | Ret _ :: rest => S (attempted rest)
  end.

(** ** Further concrete runs *)

(** An upload whose file name is outside Latin-1. *)
Definition chinese_pdf : Upload := {|
  name := [20013%N; 25991%N] ++ lit ".pdf";
  file_bytes := blit "%PDF-1.4";
|}.

(** A machine whose Poppler works on the synthetic document of the
    preflight but fails on the upload itself. *)
Definition corrupt_upload : World := {|
  test_file := lit "/tmp/test.pdf";
  named_temporary_file := lit "/tmp/tmpq7r2x_1k.pdf";
  io_fault _ _ := None;
  fitz_len _ := Raise "FileDataError";
  pdfplumber_pages _ := Ret [Ret (Some (lit "Hello"))];
  convert_from_bytes _ _ fl _ :=
    match fl with Some _ => Ret [0%N] | None => Raise "PDFPageCountError" end;
  image_to_string _ _ := Ret (lit "recognized text");
|}.

(** A machine whose disk is full: files can be created but not written. *)
Definition disk_full : World := {|
  test_file := lit "/tmp/test.pdf";
  named_temporary_file := lit "/tmp/tmpq7r2x_1k.pdf";
  io_fault op _ := match op with IoWrite => Some "OSError" | _ => None end;
  fitz_len _ := Ret 1;
  pdfplumber_pages _ := Ret [Ret (Some (lit "Hello"))];
  convert_from_bytes _ _ _ _ := Ret [1%N];
  image_to_string _ _ := Ret (lit "recognized text");
|}.

(** A machine on which the temporary copy cannot be read back, with
    Poppler and Tesseract at work. *)
Definition unreadable_copy : World := {|
  test_file := lit "/tmp/test.pdf";
  named_temporary_file := lit "/tmp/tmpq7r2x_1k.pdf";
  io_fault op p :=
    match op with
    | IoRead => if bool_decide (p = lit "/tmp/tmpq7r2x_1k.pdf")
                then Some "PermissionError" else None
    | _ => None
    end;
  fitz_len _ := Ret 1;
  pdfplumber_pages _ := Ret [Ret (Some (lit "Hello"))];
  convert_from_bytes _ _ _ _ := Ret [1%N];
  image_to_string _ _ := Ret (lit "recognized text");
|}.

(** A scanned upload of one blank page: OCR returns the empty string. *)
Definition blank_scan : World := {|
  test_file := lit "/tmp/test.pdf";
  named_temporary_file := lit "/tmp/tmpq7r2x_1k.pdf";
  io_fault _ _ := None;
  fitz_len _ := Ret 1;
  pdfplumber_pages _ := Ret [Ret None];
  convert_from_bytes _ _ _ _ := Ret [1%N];
  image_to_string _ _ := Ret [];
|}.

(** An upload of three pages whose second page makes the text-layer
    reader raise. *)
Definition broken_second_page : World := {|
  test_file := lit "/tmp/test.pdf";
  named_temporary_file := lit "/tmp/tmpq7r2x_1k.pdf";
  io_fault _ _ := None;
  fitz_len _ := Ret 3;
  pdfplumber_pages _ :=
    Ret [Ret (Some (lit "Hello")); Raise "PDFSyntaxError";
         Ret (Some (lit "never read"))];
  convert_from_bytes _ _ _ _ := Raise "PDFInfoNotInstalledError";
  image_to_string _ _ := Raise "TesseractNotFoundError";
|}.

(** A file system that already holds a user's notes and, in the temporary
    directory, an older file named [test.pdf]. *)
Definition cluttered : state := {|
  fs := <[lit "/home/user/notes.txt" := blit "notes"]>
          {[ lit "/tmp/test.pdf" := blit "an older file" ]};
  trace := [];
  extracted_text := [];
|}.

(** ** Reasoning about computations *)

#[global] Instance same_fs_preorder : PreOrder same_fs.
Proof. split; unfold same_fs; [done | intros x y z; congruence]. Qed.

#[global] Instance same_text_preorder : PreOrder same_text.
Proof. split; unfold same_text; [done | intros x y z; congruence]. Qed.

#[global] Instance emitting_preorder Q : PreOrder (emitting Q).
Proof.
  split.
  - intros s. exists []. by rewrite app_nil_r.
  - intros x y z [e1 [H1 F1]] [e2 [H2 F2]]. exists (e1 ++ e2). split.
    + by rewrite H2, H1, <- app_assoc.
    + by apply Forall_app.
Qed.

Section rules.
Context {S : Type}.
Implicit Types R : relation S.

Lemma exec_bind {A B} (m : py S A) (k : A → py S B) s :
  exec (py_bind m k) s =
  match result m s with
  | Ret a => exec (k a) (exec m s)
  | Raise _ => exec m s
  end.
Proof. unfold exec, result, py_bind. by destruct (m s) as [[a|e] s']. Qed.

Lemma result_bind {A B} (m : py S A) (k : A → py S B) s :
  result (py_bind m k) s =
  match result m s with
  | Ret a => result (k a) (exec m s)
  | Raise e => Raise e
  end.
Proof. unfold exec, result, py_bind. by destruct (m s) as [[a|e] s']. Qed.

Lemma exec_try {A} (m : py S A) h s :
  exec (try_except m h) s =
  match result m s with
  | Ret _ => exec m s
  | Raise e => exec (h e) (exec m s)
  end.
Proof. unfold exec, result, try_except. by destruct (m s) as [[a|e] s']. Qed.

Lemma result_try {A} (m : py S A) h s :
  result (try_except m h) s =
  match result m s with
  | Ret a => Ret a
  | Raise e => result (h e) (exec m s)
  end.
Proof. unfold exec, result, try_except. by destruct (m s) as [[a|e] s']. Qed.

Lemma run_eq {A} (m : py S A) s : m s = (result m s, exec m s).
Proof. unfold result, exec. by destruct (m s). Qed.

Lemma total_ret {A} (a : A) : total (py_ret (S:=S) a).
Proof. intros s. by exists a. Qed.

Lemma total_method (f : S → S) : total (method f).
Proof. intros s. by exists (). Qed.

Lemma total_bind {A B} (m : py S A) (k : A → py S B) :
  total m → (∀ a, total (k a)) → total (py_bind m k).
Proof.
  intros Hm Hk s. rewrite result_bind. destruct (Hm s) as [a ->]. apply Hk.
Qed.

Lemma total_try {A} (m : py S A) h :
  (∀ e, total (h e)) → total (try_except m h).
Proof.
  intros Hh s. rewrite result_try. destruct (result m s) as [a|e]; [by exists a|].
  apply Hh.
Qed.

Lemma total_if {A} (b : bool) (m1 m2 : py S A) :
  total m1 → total m2 → total (if b then m1 else m2).
Proof. by destruct b. Qed.

Lemma preserves_ret R `{!Reflexive R} {A} (a : A) : preserves R (py_ret a).
Proof. intros s. apply reflexivity. Qed.

Lemma preserves_call R `{!Reflexive R} {A} (o : outcome A) :
  preserves R (call o).
Proof. intros s. apply reflexivity. Qed.

Lemma preserves_bind R `{!PreOrder R} {A B} (m : py S A) (k : A → py S B) :
  preserves R m → (∀ a, preserves R (k a)) → preserves R (py_bind m k).
Proof.
  intros Hm Hk s. rewrite exec_bind. destruct (result m s); [|apply Hm].
  etrans; [apply Hm | apply Hk].
Qed.

Lemma preserves_try R `{!PreOrder R} {A} (m : py S A) h :
  preserves R m → (∀ e, preserves R (h e)) → preserves R (try_except m h).
Proof.
  intros Hm Hh s. rewrite exec_try. destruct (result m s); [apply Hm|].
  etrans; [apply Hm | apply Hh].
Qed.

Lemma preserves_if R {A} (b : bool) (m1 m2 : py S A) :
  preserves R m1 → preserves R m2 → preserves R (if b then m1 else m2).
Proof. by destruct b. Qed.
End rules.

Create HintDb py discriminated.
#[global] Hint Resolve total_ret total_method total_bind total_try total_if : py.
#[global] Hint Resolve preserves_ret preserves_call preserves_bind
  preserves_try preserves_if : py.
#[global] Hint Extern 1 (PreOrder _) => apply _ : py.
#[global] Hint Extern 1 (Reflexive _) => apply _ : py.

(** ** The primitive steps *)

Ltac prim :=
  intros ?s;
  unfold exec, result, same_fs, same_text, py_bind, py_ret, call, method,
    with_fs, with_text; simpl;
  repeat case_match; simplify_eq/=; eauto.

Section primitives.
Context (w : World).

Lemma emitting_none Q {A} (m : py state A) :
  (∀ s, trace (exec m s) = trace s) → preserves (emitting Q) m.
Proof. intros H s. exists []. by rewrite app_nil_r, H. Qed.

Lemma total_emit ev : total (emit ev).
Proof. intros s. by exists (). Qed.
Lemma total_st m : total (st m).
Proof. apply total_emit. Qed.
Lemma total_get_text : total get_text.
Proof. intros s. by eexists. Qed.
Lemma total_set_text t : total (set_text t).
Proof. intros s. by exists (). Qed.
Lemma total_append_text t : total (append_text t).
Proof. intros s. by exists (). Qed.

Lemma fs_emit ev : preserves same_fs (emit ev).
Proof. done. Qed.
Lemma fs_st m : preserves same_fs (st m).
Proof. done. Qed.
Lemma fs_get_text : preserves same_fs get_text.
Proof. done. Qed.
Lemma fs_set_text t : preserves same_fs (set_text t).
Proof. done. Qed.
Lemma fs_append_text t : preserves same_fs (append_text t).
Proof. done. Qed.
Lemma fs_fault op p : preserves same_fs (fault w op p).
Proof. unfold fault. prim. Qed.
Lemma fs_read p : preserves same_fs (read w p).
Proof. unfold read, fault. prim. Qed.
Lemma fs_convert data dpi fl pp : preserves same_fs (convert w data dpi fl pp).
Proof. unfold convert, emit. prim. Qed.

Lemma text_emit ev : preserves same_text (emit ev).
Proof. done. Qed.
Lemma text_st m : preserves same_text (st m).
Proof. done. Qed.
Lemma text_get_text : preserves same_text get_text.
Proof. done. Qed.
Lemma text_method_fs f : preserves same_text (method (with_fs f)).
Proof. done. Qed.
Lemma text_fault op p : preserves same_text (fault w op p).
Proof. unfold fault. prim. Qed.
Lemma text_open_wb p : preserves same_text (open_wb w p).
Proof. unfold open_wb, fault. prim. Qed.
Lemma text_f_write p data : preserves same_text (f_write w p data).
Proof. unfold f_write, fault. prim. Qed.
Lemma text_read p : preserves same_text (read w p).
Proof. unfold read, fault. prim. Qed.
Lemma text_os_remove p : preserves same_text (os_remove w p).
Proof. unfold os_remove, fault, emit. prim. Qed.
Lemma text_convert data dpi fl pp :
  preserves same_text (convert w data dpi fl pp).
Proof. unfold convert, emit. prim. Qed.

Lemma emitting_emit (Q : event → Prop) ev : Q ev → preserves (emitting Q) (emit ev).
Proof. intros H s. exists [ev]. split; [done|]. by constructor. Qed.
Lemma emitting_st (Q : event → Prop) m : Q (Ui m) → preserves (emitting Q) (st m).
Proof. apply emitting_emit. Qed.
Lemma emitting_get_text Q : preserves (emitting Q) get_text.
Proof. by apply emitting_none. Qed.
Lemma emitting_set_text Q t : preserves (emitting Q) (set_text t).
Proof. by apply emitting_none. Qed.
Lemma emitting_append_text Q t : preserves (emitting Q) (append_text t).
Proof. by apply emitting_none. Qed.
Lemma emitting_fault Q op p : preserves (emitting Q) (fault w op p).
Proof. apply emitting_none. unfold fault. prim. Qed.
Lemma emitting_open_wb Q p : preserves (emitting Q) (open_wb w p).
Proof. apply emitting_none. unfold open_wb, fault. prim. Qed.
Lemma emitting_f_write Q p data : preserves (emitting Q) (f_write w p data).
Proof. apply emitting_none. unfold f_write, fault. prim. Qed.
Lemma emitting_read Q p : preserves (emitting Q) (read w p).
Proof. apply emitting_none. unfold read, fault. prim. Qed.
Lemma emitting_os_remove (Q : event → Prop) p :
  Q (OsRemove p) → preserves (emitting Q) (os_remove w p).
Proof.
  intros H s. exists [OsRemove p]. split; [|by constructor].
  unfold os_remove, fault, emit. revert s. prim.
Qed.
Lemma emitting_convert (Q : event → Prop) data dpi fl pp :
  Q (ConvertFromBytes data dpi fl pp) →
  preserves (emitting Q) (convert w data dpi fl pp).
Proof.
  intros H s. exists [ConvertFromBytes data dpi fl pp]. split; [|by constructor].
  unfold convert, emit. revert s. prim.
Qed.
End primitives.

#[global] Hint Resolve total_emit total_st total_get_text total_set_text
  total_append_text : py.
#[global] Hint Resolve fs_emit fs_st fs_get_text fs_set_text fs_append_text
  fs_fault fs_read fs_convert : py.
#[global] Hint Resolve text_emit text_st text_get_text text_method_fs text_fault
  text_open_wb text_f_write text_read text_os_remove text_convert : py.
#[global] Hint Resolve emitting_emit emitting_st emitting_get_text
  emitting_set_text emitting_append_text emitting_fault emitting_open_wb
  emitting_f_write emitting_read emitting_os_remove emitting_convert : py.
#[global] Hint Extern 2 (¬ _) => (simpl; tauto) : py.
#[global] Hint Extern 2 (ocr_call _) => exact I : py.
#[global] Hint Extern 2 (fallback_call _) => exact I : py.
#[global] Hint Extern 2 (native_call _) => exact I : py.
#[global] Hint Extern 2 (remove_call _) => exact I : py.
#[global] Hint Extern 2 (ui_call _) => exact I : py.

(** ** The rasterization preflight *)

Section preflight.
Context (w : World).

Lemma is_poppler_installed_run custom_path s :
  result (is_poppler_installed w custom_path) s
    = Ret (preflight_passes w custom_path)
  ∧ fs (exec (is_poppler_installed w custom_path) s)
    = preflight_fs w custom_path (fs s).
Proof.
  unfold is_poppler_installed, preflight_passes, preflight_fs,
    preflight_passes, probe_rasterization, no_fault,
    open_wb, f_write, read, os_remove, convert, fault, emit.
  unfold exec, result, try_except, py_bind, py_ret, call, method, with_fs.
  cbn -[test_pdf].
  destruct (io_fault w IoOpenW (test_file w)); cbn -[test_pdf]; [done|].
  destruct (io_fault w IoWrite (test_file w)); cbn -[test_pdf]; [done|].
  rewrite insert_insert_eq.
  destruct (io_fault w IoRead (test_file w)); cbn -[test_pdf]; [done|].
  rewrite lookup_insert_eq. cbn -[test_pdf].
  destruct (convert_from_bytes w test_pdf 200 (Some (1, 1)) custom_path);
    cbn -[test_pdf]; [|done].
  destruct (io_fault w IoRemove (test_file w)); cbn -[test_pdf]; [done|].
  rewrite lookup_insert_eq. cbn -[test_pdf].
  by rewrite delete_insert_eq.
Qed.

Lemma is_poppler_installed_result custom_path s :
  result (is_poppler_installed w custom_path) s
    = Ret (preflight_passes w custom_path).
Proof. apply is_poppler_installed_run. Qed.

Lemma total_is_poppler_installed custom_path :
  total (is_poppler_installed w custom_path).
Proof. intros s. eexists. apply is_poppler_installed_result. Qed.

Lemma text_is_poppler_installed custom_path :
  preserves same_text (is_poppler_installed w custom_path).
Proof. unfold is_poppler_installed. eauto 20 with py. Qed.

(** The preflight calls no OCR engine. *)
Lemma emitting_is_poppler_installed custom_path :
  preserves (emitting (λ ev, ¬ ocr_call ev))
    (is_poppler_installed w custom_path).
Proof. unfold is_poppler_installed. eauto 20 with py. Qed.

(** A rasterization that raises leaves the synthetic document on disk. *)
Lemma preflight_leaves_test_file custom_path s :
  no_fault w IoOpenW (test_file w) = true →
  no_fault w IoWrite (test_file w) = true →
  is_raise (probe_rasterization w custom_path) = true →
  result (is_poppler_installed w custom_path) s = Ret false
  ∧ fs (exec (is_poppler_installed w custom_path) s) !! test_file w
    = Some test_pdf.
Proof.
  intros H1 H2 H3.
  destruct (is_poppler_installed_run custom_path s) as [-> ->].
  unfold preflight_fs, preflight_passes. rewrite H1, H2, H3. cbn -[test_pdf].
  rewrite andb_false_r. cbn -[test_pdf]. split; [done|].
  apply lookup_insert_eq.
Qed.
End preflight.

#[global] Hint Resolve total_is_poppler_installed text_is_poppler_installed : py.

(** ** The two page loops *)


Section loops.
Context (w : World) (cfg : Config).

Lemma native_loop_run pages i s :
  native_loop pages i s =
  (match first_raise pages with Some e => Raise e | None => Ret () end,
   {| fs := fs s;
      trace := trace s ++ native_events pages i;
      extracted_text := extracted_text s ++ render (native_chunks pages i) |}).
Proof.
  revert i s. induction pages as [|[extracted|e] rest IH]; intros i s.
  - simpl. unfold py_ret. rewrite !app_nil_r. by destruct s.
  - cbn [native_loop native_chunks native_events first_raise].
    unfold py_bind at 1. cbn [emit].
    unfold py_bind at 1. cbn [call].
    unfold py_bind at 1.
    destruct (truthy (strip (default [] extracted))).
    + cbn [append_text with_text fs trace extracted_text].
      rewrite IH. cbn [with_text fs trace extracted_text render].
      by rewrite <- !app_assoc.
    + cbn [py_ret]. rewrite IH. cbn [with_text fs trace extracted_text].
      by rewrite <- !app_assoc.
  - cbn [native_loop native_chunks native_events first_raise].
    unfold py_bind at 1. cbn [emit].
    unfold py_bind at 1. cbn [call render]. by rewrite app_nil_r.
Qed.

Lemma ocr_loop_run images i n s :
  ocr_loop w cfg images i n s =
  (Ret (),
   {| fs := fs s;
      trace := trace s ++ ocr_events w cfg images i n;
      extracted_text := extracted_text s ++ render (ocr_chunks w cfg images i) |}).
Proof.
  revert i s. induction images as [|img rest IH]; intros i s.
  - simpl. unfold py_ret. rewrite !app_nil_r. by destruct s.
  - cbn [ocr_loop ocr_chunks ocr_events].
    unfold py_bind at 1. cbn [st emit].
    unfold py_bind at 1, try_except.
    unfold py_bind at 1. cbn [emit].
    unfold py_bind at 1. cbn [call].
    destruct (image_to_string w img (ocr_lang cfg)) as [text|e].
    + unfold py_bind at 1.
      cbn [append_text with_text st emit fs trace extracted_text].
      rewrite IH. cbn [with_text fs trace extracted_text render].
      by rewrite <- !app_assoc.
    + cbn [st emit fs trace extracted_text].
      rewrite IH. cbn [with_text fs trace extracted_text].
      by rewrite <- !app_assoc.
Qed.


End loops.

(** ** The phases of a run *)

Lemma bind_ret {S A B} (m : py S A) (k : A → py S B) s a :
  result m s = Ret a → py_bind m k s = k a (exec m s).
Proof. unfold result, exec, py_bind. destruct (m s) as [[?|?] ?]; naive_solver. Qed.

Lemma total_unit {S} (m : py S ()) s : total m → m s = (Ret (), exec m s).
Proof. intros H. rewrite (run_eq m s). destruct (H s) as [[] ->]. done. Qed.

Lemma bind_total {S B} (m : py S ()) (k : () → py S B) s :
  total m → py_bind m k s = k () (exec m s).
Proof. intros H. apply bind_ret. by destruct (H s) as [[] ?]. Qed.

(** One step of a sequence, with the state operations computed. *)
Ltac step :=
  unfold py_bind at 1;
  cbn [st emit set_text append_text get_text call method py_ret
       with_text with_fs fs trace extracted_text].

Section phases.
Context (w : World) {doc : Type} `{!FPDF doc}.
Context (cfg : Config) (up : Upload) (tmp : path).

(** *** The page-count probe *)

Lemma total_page_count_probe : total (page_count_probe w tmp).
Proof. unfold page_count_probe. auto with py. Qed.

Lemma fs_page_count_probe : preserves same_fs (page_count_probe w tmp).
Proof. unfold page_count_probe. eauto 20 with py. Qed.

Lemma text_page_count_probe : preserves same_text (page_count_probe w tmp).
Proof. unfold page_count_probe. eauto 20 with py. Qed.

Lemma emitting_page_count_probe (Q : event → Prop) :
  Q (FitzOpen tmp) → (∀ m, Q (Ui m)) →
  preserves (emitting Q) (page_count_probe w tmp).
Proof. intros. unfold page_count_probe. eauto 20 with py. Qed.

(** *** Native extraction *)

Lemma read_run p s : read w p s = (read_result w (fs s) p, s).
Proof.
  unfold read, read_result, fault, py_bind.
  destruct (io_fault w IoRead p); [done|]. by destruct (fs s !! p).
Qed.

Lemma fs_native_loop pages i : preserves same_fs (native_loop pages i).
Proof. intros s. unfold exec. by rewrite native_loop_run. Qed.

Lemma emitting_native_loop (Q : event → Prop) pages i :
  (∀ j, Q (ExtractText j)) → preserves (emitting Q) (native_loop pages i).
Proof.
  intros HQ s. unfold exec. rewrite native_loop_run. eexists. split; [done|].
  revert i. induction pages as [|[?|?] rest IH]; intros i; simpl; auto.
Qed.

Lemma total_native_extraction : total (native_extraction w tmp).
Proof. unfold native_extraction. auto with py. Qed.

Lemma fs_native_extraction : preserves same_fs (native_extraction w tmp).
Proof.
  pose proof fs_native_loop. unfold native_extraction.
  eauto 20 using preserves_if with py.
Qed.

Lemma emitting_native_extraction (Q : event → Prop) :
  Q (PlumberOpen tmp) → (∀ j, Q (ExtractText j)) → (∀ m, Q (Ui m)) →
  preserves (emitting Q) (native_extraction w tmp).
Proof.
  intros. pose proof (emitting_native_loop Q). unfold native_extraction.
  eauto 20 using preserves_if with py.
Qed.

(** The accumulator after native extraction. *)
Lemma native_extraction_text s :
  extracted_text (exec (native_extraction w tmp) s) =
  match native_pages w tmp s with
  | Raise _ => []
  | Ret pages =>
      match first_raise pages with
      | Some _ => []
      | None => extracted_text s ++ render (native_chunks pages 0)
      end
  end.
Proof.
  unfold native_extraction, native_pages.
  unfold exec, try_except.
  unfold py_bind at 1. cbn [emit].
  unfold py_bind at 1. rewrite read_run. cbn [fs].
  destruct (read_result w (fs s) tmp) as [data|e]; [|done].
  unfold py_bind at 1. cbn [call].
  destruct (pdfplumber_pages w data) as [pages|e]; [|done].
  unfold py_bind at 1. rewrite native_loop_run.
  destruct (first_raise pages); [done|].
  unfold py_bind, get_text. cbn [fst snd extracted_text].
  by destruct (Nat.ltb _ _).
Qed.

(** *** The fallback *)

Lemma perform_ocr_run s :
  perform_ocr w cfg up s =
  (Ret (), {| fs := fs s; trace := trace s ++ ocr_trace w cfg up;
              extracted_text := ocr_output w cfg up |}).
Proof.
  unfold perform_ocr, ocr_trace, ocr_output, rasterization, pp.
  step. unfold try_except, convert. step. step.
  destruct (convert_from_bytes w _ _ _ _) as [images|e].
  - step. step. step. rewrite ocr_loop_run.
    unfold st, emit. cbn [fs trace extracted_text app].
    by rewrite <- !app_assoc.
  - unfold st, emit. cbn [fs trace extracted_text app].
    by rewrite <- !app_assoc.
Qed.

(** The probe announces itself first, and calls no OCR engine. *)
Lemma is_poppler_installed_trace s :
  ∃ evs, trace (exec (is_poppler_installed w (pp cfg)) s)
         = trace s ++ Preflight (pp cfg) :: evs
         ∧ Forall (λ ev, ¬ ocr_call ev) evs.
Proof.
  unfold is_poppler_installed. rewrite exec_bind. cbn [result emit fst].
  match goal with |- context [exec (try_except ?m ?h) ?s0] =>
    assert (preserves (emitting (λ ev, ¬ ocr_call ev)) (try_except m h)) as H
      by eauto 20 with py;
    destruct (H s0) as (evs & -> & HF)
  end.
  exists evs. split; [|done]. unfold exec. cbn. by rewrite <- app_assoc.
Qed.

Lemma ocr_fallback_skipped s :
  fallback_triggered cfg s = false → ocr_fallback w cfg up s = (Ret (), s).
Proof.
  unfold fallback_triggered, ocr_fallback, py_bind, get_text. by intros ->.
Qed.

(** The fallback when it is entered: the warning, the preflight, then
    either the installation guidance or the OCR branch. *)
Lemma ocr_fallback_entered s :
  fallback_triggered cfg s = true →
  ∃ s1 evs,
    trace s1 = trace s ++ [Ui warning_switch_ocr; Preflight (pp cfg)] ++ evs
    ∧ Forall (λ ev, ¬ ocr_call ev) evs
    ∧ extracted_text s1 = extracted_text s
    ∧ ocr_fallback w cfg up s =
      if preflight_passes w (pp cfg)
      then perform_ocr w cfg up s1
      else st error_poppler_missing s1.
Proof.
  intros Htrig.
  set (s0 := {| fs := fs s; trace := trace s ++ [Ui warning_switch_ocr];
                extracted_text := extracted_text s |}).
  destruct (is_poppler_installed_trace s0) as (evs & Htr & HF).
  exists (exec (is_poppler_installed w (pp cfg)) s0), evs. split_and!.
  - rewrite Htr. cbn. by rewrite <- app_assoc.
  - done.
  - apply (text_is_poppler_installed w (pp cfg) s0).
  - unfold ocr_fallback. unfold py_bind at 1. cbn [get_text].
    fold (fallback_triggered cfg s). rewrite Htrig.
    unfold py_bind at 1. cbn [st emit]. fold s0. fold (pp cfg).
    rewrite (bind_ret _ _ _ _ (is_poppler_installed_result w (pp cfg) s0)).
    by destruct (preflight_passes w (pp cfg)).
Qed.

Lemma total_ocr_fallback : total (ocr_fallback w cfg up).
Proof.
  intros s. exists (). destruct (fallback_triggered cfg s) eqn:Htrig.
  - destruct (ocr_fallback_entered s Htrig) as (s1 & evs & _ & _ & _ & Hrun).
    unfold result. rewrite Hrun. destruct (preflight_passes w (pp cfg)); [|done].
    by rewrite perform_ocr_run.
  - unfold result. by rewrite ocr_fallback_skipped.
Qed.

(** *** Cleanup *)

Lemma cleanup_run s :
  cleanup w tmp s =
  (Ret (), {| fs := if no_fault w IoRemove tmp then delete tmp (fs s) else fs s;
              trace := trace s ++ [OsRemove tmp];
              extracted_text := extracted_text s |}).
Proof.
  unfold cleanup, os_remove, no_fault, fault, try_except, py_bind, emit,
    py_ret, with_fs.
  destruct (io_fault w IoRemove tmp); cbn; [done|].
  destruct (fs s !! tmp) eqn:Hlook; cbn; [done|]. by rewrite delete_id.
Qed.

Lemma total_cleanup : total (cleanup w tmp).
Proof. intros s. exists (). unfold result. by rewrite cleanup_run. Qed.

(** *** Presentation *)

Lemma total_show_result : total (show_result up).
Proof.
  unfold show_result.
  apply total_bind; [auto with py|]. intros t.
  apply total_bind; [|auto with py]. apply total_if; auto 10 with py.
Qed.

Lemma fs_show_result : preserves same_fs (show_result up).
Proof. unfold show_result. eauto 20 with py. Qed.

Lemma text_show_result : preserves same_text (show_result up).
Proof. unfold show_result. eauto 20 with py. Qed.

Lemma emitting_show_result : preserves (emitting ui_call) (show_result up).
Proof. unfold show_result. eauto 20 with py. Qed.

(** *** The phases in sequence *)

Lemma total_strategy_a :
  total (if negb (fallback_all_pages cfg) then native_extraction w tmp else pass).
Proof. apply total_if; [apply total_native_extraction | auto with py]. Qed.

Lemma processing_run s :
  processing w cfg up tmp s = ocr_fallback w cfg up (after_native w cfg tmp s).
Proof.
  unfold processing, after_native.
  rewrite (bind_total _ _ s total_page_count_probe).
  rewrite (bind_total _ _ _ total_strategy_a).
  f_equal. rewrite exec_bind.
  by destruct (total_page_count_probe s) as [[] ->].
Qed.

Lemma total_processing : total (processing w cfg up tmp).
Proof.
  intros s. unfold result. rewrite processing_run.
  apply total_ocr_fallback.
Qed.

Lemma process_run s :
  process w cfg up tmp s
  = show_result up (exec (cleanup w tmp) (exec (processing w cfg up tmp) s)).
Proof.
  unfold process. rewrite (bind_total _ _ s total_processing).
  by rewrite (bind_total _ _ _ total_cleanup).
Qed.

Lemma total_process : total (process w cfg up tmp).
Proof. intros s. unfold result. rewrite process_run. apply total_show_result. Qed.

(** The accumulator when the fallback condition is evaluated. *)
Lemma after_native_text s :
  extracted_text (after_native w cfg tmp s) =
  if fallback_all_pages cfg then extracted_text s
  else match native_pages w tmp s with
       | Raise _ => []
       | Ret pages =>
           match first_raise pages with
           | Some _ => []
           | None => extracted_text s ++ render (native_chunks pages 0)
           end
       end.
Proof.
  unfold after_native. rewrite exec_bind.
  destruct (total_page_count_probe s) as [[] ->].
  pose proof (text_page_count_probe s) as Ht.
  pose proof (fs_page_count_probe s) as Hf.
  unfold same_text, same_fs in *.
  destruct (fallback_all_pages cfg); cbn [negb]; [done|].
  rewrite native_extraction_text. unfold native_pages. by rewrite Hf, Ht.
Qed.

Lemma emitting_after_native (Q : event → Prop) s :
  Q (FitzOpen tmp) → Q (PlumberOpen tmp) → (∀ j, Q (ExtractText j)) →
  (∀ m, Q (Ui m)) → emitting Q s (after_native w cfg tmp s).
Proof.
  intros. unfold after_native.
  pose proof (emitting_page_count_probe Q).
  pose proof (emitting_native_extraction Q).
  apply (preserves_bind (emitting Q)); [auto|]. intros _.
  apply preserves_if; auto with py.
Qed.

(** With OCR forced, native extraction is not even started. *)
Lemma emitting_after_native_forced s :
  fallback_all_pages cfg = true →
  emitting (λ ev, ¬ native_call ev ∧ ¬ fallback_call ev) s (after_native w cfg tmp s).
Proof.
  intros Hforce. unfold after_native. rewrite Hforce. cbn [negb].
  apply (preserves_bind (emitting _)); [|auto with py].
  apply emitting_page_count_probe; simpl; tauto.
Qed.

(** The whole run, from the state in which the fallback condition is
    evaluated. *)
Lemma exec_process s :
  exec (process w cfg up tmp) s
  = exec (show_result up)
      (exec (cleanup w tmp) (exec (ocr_fallback w cfg up) (after_native w cfg tmp s))).
Proof.
  unfold exec at 1. rewrite process_run.
  assert (exec (processing w cfg up tmp) s
          = exec (ocr_fallback w cfg up) (after_native w cfg tmp s)) as ->; [|done].
  unfold exec. by rewrite processing_run.
Qed.

Lemma process_text s :
  extracted_text (exec (process w cfg up tmp) s)
  = extracted_text (exec (ocr_fallback w cfg up) (after_native w cfg tmp s)).
Proof.
  rewrite exec_process.
  rewrite (text_show_result _ : extracted_text (exec _ _) = _).
  unfold exec at 1. by rewrite cleanup_run.
Qed.

Lemma process_trace s :
  ∃ evs, Forall ui_call evs ∧
    trace (exec (process w cfg up tmp) s)
    = trace (exec (ocr_fallback w cfg up) (after_native w cfg tmp s))
      ++ [OsRemove tmp] ++ evs.
Proof.
  rewrite exec_process.
  destruct (emitting_show_result
    (exec (cleanup w tmp) (exec (ocr_fallback w cfg up) (after_native w cfg tmp s))))
    as (evs & -> & HF).
  exists evs. split; [done|].
  unfold exec at 1. rewrite cleanup_run. cbn [snd trace].
  by rewrite <- app_assoc.
Qed.
End phases.

(** ** The claims *)

(** On the success path the probe does delete its document. *)
Lemma preflight_success_removes_test_file w custom_path s :
  preflight_passes w custom_path = true →
  fs (exec (is_poppler_installed w custom_path) s) !! test_file w = None.
Proof.
  intros H. destruct (is_poppler_installed_run w custom_path s) as [_ ->].
  unfold preflight_fs. rewrite H.
  unfold preflight_passes in H. repeat (apply andb_prop in H as [H ?]).
  rewrite H. cbn [negb].
  destruct (no_fault w IoWrite (test_file w)); [|done]. cbn [negb].
  apply lookup_delete_eq.
Qed.

(** C7. [is_poppler_installed] returns a boolean for every path argument
    and in every state, and never raises: [True] only if rasterizing the
    synthetic one-page document succeeded, [False] whenever that
    rasterization raises, and [False] as well whenever any file operation
    of the probe raises. *)
Theorem is_poppler_installed_total w custom_path s :
  ∃ b : bool,
    result (is_poppler_installed w custom_path) s = Ret b
    ∧ (b = true → ∃ images, probe_rasterization w custom_path = Ret images)
    ∧ (∀ e, probe_rasterization w custom_path = Raise e → b = false)
    ∧ (∀ op e, io_fault w op (test_file w) = Some e → b = false)
    ∧ (b = true ↔ preflight_passes w custom_path = true).
Proof.
  exists (preflight_passes w custom_path).
  split; [apply is_poppler_installed_result|].
  unfold preflight_passes, no_fault. split_and!.
  - intros H. repeat (apply andb_prop in H as [H ?]).
    destruct (probe_rasterization w custom_path); [eauto|done].
  - intros e ->. cbn. by rewrite !andb_false_r.
  - intros op e He.
    destruct op; rewrite He; cbn; by rewrite ?andb_false_r.
  - done.
Qed.

(** C9 (defect of the code). On a machine without Poppler the preflight
    answers [False] and returns with its synthetic [test.pdf] still on
    disk: [os.remove] is reached only when the rasterization succeeded. *)
Theorem preflight_failure_leaves_test_pdf :
  let s' := exec (is_poppler_installed no_poppler None) fresh in
  result (is_poppler_installed no_poppler None) fresh = Ret false
  ∧ fs s' !! test_file no_poppler = Some test_pdf
  ∧ trace s' = [Preflight None; ConvertFromBytes test_pdf 200 (Some (1, 1)) None].
Proof.
  cbv zeta. split_and!.
  - by apply preflight_leaves_test_file.
  - by apply preflight_leaves_test_file.
  - reflexivity.
Qed.

Section cleanup_claim.
Context (w : World) {doc : Type} `{!FPDF doc}.
Context (cfg : Config) (up : Upload) (tmp : path).

(** Once the copy is written: whatever the libraries answer or raise while
    it is in use, processing hands over to the cleanup, which attempts
    [os.unlink(tmp_pdf_path)] exactly once; the cleanup itself never
    raises, leaves the accumulator alone, and the result presentation runs
    from the state it leaves. When the deletion is not refused the copy is
    gone from the file system at the end of the run. *)
Theorem temporary_copy_removed s :
  let s1 := exec (processing w cfg up tmp) s in
  let s2 := exec (cleanup w tmp) s1 in
  let s' := exec (process w cfg up tmp) s in
  result (processing w cfg up tmp) s = Ret ()
  ∧ result (cleanup w tmp) s1 = Ret ()
  ∧ trace s2 = trace s1 ++ [OsRemove tmp]
  ∧ extracted_text s2 = extracted_text s1
  ∧ fs s2 = (if no_fault w IoRemove tmp then delete tmp (fs s1) else fs s1)
  ∧ process w cfg up tmp s = show_result up s2
  ∧ result (process w cfg up tmp) s = Ret ()
  ∧ (∃ evs, trace s' = trace s2 ++ evs ∧ Forall ui_call evs)
  ∧ (io_fault w IoRemove tmp = None → fs s' !! tmp = None).
Proof.
  cbv zeta.
  assert (∀ m : py state (), total m → ∀ s0, result m s0 = Ret ()) as Hunit.
  { intros m Hm s0. by destruct (Hm s0) as [[] ->]. }
  split_and!.
  - apply Hunit, total_processing.
  - apply Hunit, total_cleanup.
  - unfold exec at 1. by rewrite cleanup_run.
  - unfold exec at 1. by rewrite cleanup_run.
  - unfold exec at 1. by rewrite cleanup_run.
  - apply process_run.
  - apply Hunit, total_process.
  - unfold exec at 1. rewrite process_run. apply emitting_show_result.
  - intros Hfault. rewrite exec_process.
    rewrite (fs_show_result up _ : fs (exec _ _) = _).
    unfold exec at 1. rewrite cleanup_run. cbn [snd fs].
    unfold no_fault. rewrite Hfault. apply lookup_delete_eq.
Qed.
End cleanup_claim.

(** On a machine without Poppler, where the fallback stops at the
    preflight: the copy written for the run is gone at its end. *)
Lemma temporary_copy_removed_witness :
  fs (uploaded no_poppler hello_pdf) !! named_temporary_file no_poppler
    = Some (file_bytes hello_pdf)
  ∧ fs (exec (process no_poppler default_config hello_pdf
                (named_temporary_file no_poppler))
          (uploaded no_poppler hello_pdf))
      !! named_temporary_file no_poppler = None.
Proof.
  split; [vm_compute; reflexivity|].
  by apply (temporary_copy_removed no_poppler default_config hello_pdf
              (named_temporary_file no_poppler) (uploaded no_poppler hello_pdf)).
Defined.

(** C8 (defect of the code). On a machine whose disk is full the
    temporary file is created, the write of the uploaded bytes raises, and
    the run ends there with that exception: the write is outside every
    [try], the cleanup at the end of the block is never reached, no
    [os.unlink] is attempted and the file, empty, stays on disk. *)
Theorem failed_write_leaves_the_temporary_copy :
  let run := main disk_full default_config (Some hello_pdf) in
  fs fresh !! named_temporary_file disk_full = None
  ∧ result run fresh = Raise "OSError"
  ∧ fs (exec run fresh) !! named_temporary_file disk_full = Some []
  ∧ trace (exec run fresh) = [Ui info_processing].
Proof. cbv zeta. split_and!; vm_compute; reflexivity. Qed.

(** What [strip] leaves. *)

Lemma lstrip_blank s : lstrip s = [] ↔ Forall (λ c, isspace c = true) s.
Proof.
  induction s as [|c r IH]; simpl; [by split; [constructor|]|].
  destruct (isspace c) eqn:Hc.
  - rewrite IH. split; [by constructor|]. by inversion 1.
  - split; [done|]. inversion 1; congruence.
Qed.

Lemma lstrip_suffix s : ∃ blanks, s = blanks ++ lstrip s
                                  ∧ Forall (λ c, isspace c = true) blanks.
Proof.
  induction s as [|c r (blanks & Hr & HF)]; simpl; [by exists []|].
  destruct (isspace c) eqn:Hc.
  - exists (c :: blanks). split; [simpl; congruence|by constructor].
  - by exists [].
Qed.

Lemma strip_blank s : strip s = [] ↔ Forall (λ c, isspace c = true) s.
Proof.
  unfold strip, rstrip.
  destruct (lstrip_suffix s) as (blanks & Hs & Hblanks).
  split.
  - intros H. apply (f_equal reverse) in H.
    rewrite reverse_involutive, reverse_nil in H.
    apply lstrip_blank in H. rewrite Forall_reverse in H.
    rewrite Hs. by apply Forall_app.
  - intros H. rewrite Hs in H. apply Forall_app in H as [_ H].
    rewrite <- Forall_reverse in H. apply lstrip_blank in H. by rewrite H.
Qed.

(** The truth value of [t.strip()]: [t] holds a character that is not
    white space. *)
Lemma truthy_strip t : truthy (strip t) = true ↔ Exists visible t.
Proof.
  split.
  - intros H. destruct (decide (Forall (λ c, isspace c = true) t)) as [HF|HF].
    + apply strip_blank in HF. by rewrite HF in H.
    + apply not_Forall_Exists in HF; [|apply _].
      eapply Exists_impl; [exact HF|]. intros c Hc. simpl in Hc.
      unfold visible. by destruct (isspace c).
  - intros H. destruct (strip t) eqn:Hs; [|done]. exfalso.
    apply strip_blank in Hs. apply Exists_exists in H as (c & Hin & Hc).
    eapply Forall_forall in Hs; [|exact Hin]. unfold visible in Hc. congruence.
Qed.

Section loop_claims.
Context (w : World) (cfg : Config).







(** C10. A page whose native text is missing, empty or whitespace-only
    leaves the accumulator as it was: neither text nor marker. A page
    whose OCR call returns always appends the line "--- Page N ---", N its
    1-indexed number, between two newlines, followed by the recognized
    text, whatever that text is, empty and whitespace-only included. What
    is appended is never blank: unlike the native loop, the OCR loop
    leaves for a blank page a text that the presentation shows. *)
Theorem empty_pages_asymmetry :
  (∀ extracted rest i s,
     strip (default [] extracted) = [] →
     native_loop (Ret extracted :: rest) i s
     = native_loop rest (S i)
         {| fs := fs s; trace := trace s ++ [ExtractText i];
            extracted_text := extracted_text s |})
  ∧ (∀ img rest i n s text,
     image_to_string w img (ocr_lang cfg) = Ret text →
     ocr_loop w cfg (img :: rest) i n s
     = ocr_loop w cfg rest (S i) n
         {| fs := fs s;
            trace := trace s ++ [Ui (progress (i + 1) n);
                                 ImageToString img (ocr_lang cfg);
                                 Ui (info_processed (i + 1) n)];
            extracted_text :=
              extracted_text s
              ++ [NL] ++ lit "--- Page " ++ str_of_nat (i + 1) ++ lit " ---"
              ++ [NL] ++ text |})
  ∧ (∀ i text,
     truthy (strip ([NL] ++ lit "--- Page " ++ str_of_nat (i + 1) ++ lit " ---"
                    ++ [NL] ++ text)) = true).
Proof.
  split_and!.
  - intros extracted rest i s Hblank. cbn [native_loop].
    step. step. rewrite Hblank. cbn [truthy]. by step.
  - intros img rest i n s text Hocr. cbn [ocr_loop].
    step. unfold py_bind at 1, try_except. step. step. rewrite Hocr.
    step. unfold page_chunk, page_marker. by rewrite <- !app_assoc.
  - intros i text. apply truthy_strip.
    apply Exists_cons_tl, Exists_cons_hd. reflexivity.
Qed.
End loop_claims.


(** C10, on a page that holds a single space: native extraction writes
    nothing for it, the OCR loop writes the marker line and the space. *)
Lemma empty_pages_asymmetry_witness :
  extracted_text (exec (native_loop [Ret (Some [32%N])] 0) fresh) = []
  ∧ extracted_text (exec (ocr_loop three_scans default_config [3%N] 0 1) fresh)
    = [NL] ++ lit "--- Page 1 ---" ++ [NL; 32%N].
Proof.
  destruct (empty_pages_asymmetry three_scans default_config) as (Hn & Ho & _).
  split.
  - unfold exec. by rewrite (Hn (Some [32%N]) [] 0 fresh eq_refl).
  - unfold exec. by rewrite (Ho 3%N [] 0 1 fresh [32%N] eq_refl).
Defined.

Section run_claims.
Context (w : World) {doc : Type} `{!FPDF doc}.
Context (cfg : Config) (up : Upload) (tmp : path).

(** The events of the presentation. *)
Lemma show_result_run s :
  let t := extracted_text s in
  show_result up s =
  (Ret (),
   {| fs := fs s;
      trace := trace s ++
        (if truthy (strip t)
         then [Ui success_complete; Ui (text_area t); Ui (download_text t);
               match create_pdf_from_text t (lit "Extracted from " ++ name up) with
               | Ret pdf_bytes => Ui (download_pdf pdf_bytes)
               | Raise e => Ui (error_pdf e)
               end]
         else [Ui error_failed]) ++ [Ui tips];
      extracted_text := t |}).
Proof.
  cbv zeta. unfold show_result. step. unfold py_bind at 1.
  destruct (truthy (strip (extracted_text s))).
  - step. step. step. unfold try_except. step.
    destruct (create_pdf_from_text _ _); unfold st, emit;
      cbn [fs trace extracted_text]; by rewrite <- !app_assoc.
  - unfold st, emit. cbn [fs trace extracted_text]. by rewrite <- !app_assoc.
Qed.

(** The final text: the OCR output when the OCR branch is entered, the
    accumulator as native extraction left it otherwise. *)
Lemma process_text_selected s :
  extracted_text (exec (process w cfg up tmp) s) =
  if fallback_triggered cfg (after_native w cfg tmp s)
     && preflight_passes w (pp cfg)
  then ocr_output w cfg up
  else extracted_text (after_native w cfg tmp s).
Proof.
  rewrite process_text.
  destruct (fallback_triggered cfg (after_native w cfg tmp s)) eqn:Htrig.
  - destruct (ocr_fallback_entered w cfg up _ Htrig) as (s1 & evs & _ & _ & Ht & Hrun).
    unfold exec at 1. rewrite Hrun. cbn [andb].
    destruct (preflight_passes w (pp cfg)); [by rewrite perform_ocr_run|done].
  - unfold exec at 1. by rewrite ocr_fallback_skipped.
Qed.

(** Unless the OCR branch is entered, the fallback calls no OCR engine. *)
Lemma ocr_fallback_without_ocr s :
  fallback_triggered cfg s && preflight_passes w (pp cfg) = false →
  emitting (λ ev, ¬ ocr_call ev) s (exec (ocr_fallback w cfg up) s).
Proof.
  intros Hno. destruct (fallback_triggered cfg s) eqn:Htrig.
  - destruct (ocr_fallback_entered w cfg up _ Htrig) as (s1 & evs & Htr & HF & _ & Hrun).
    cbn [andb] in Hno. rewrite Hno in Hrun. unfold exec. rewrite Hrun.
    exists ([Ui warning_switch_ocr; Preflight (pp cfg)] ++ evs
            ++ [Ui error_poppler_missing]).
    split.
    + cbn [st emit snd trace]. rewrite Htr. by rewrite <- !app_assoc.
    + repeat (apply Forall_app; split); auto;
        repeat constructor; simpl; tauto.
  - unfold exec. rewrite ocr_fallback_skipped by done. reflexivity.
Qed.

(** The events of a run, given those of its fallback. *)
Lemma process_emitting (Q : event → Prop) s :
  Q (FitzOpen tmp) → Q (PlumberOpen tmp) → (∀ j, Q (ExtractText j)) →
  (∀ m, Q (Ui m)) → Q (OsRemove tmp) →
  emitting Q (after_native w cfg tmp s)
    (exec (ocr_fallback w cfg up) (after_native w cfg tmp s)) →
  emitting Q s (exec (process w cfg up tmp) s).
Proof.
  intros Q1 Q2 Q3 Q4 Q5 Hfb.
  etrans; [by apply emitting_after_native|]. etrans; [exact Hfb|].
  destruct (process_trace w cfg up tmp s) as (evs & HF & Heq).
  exists ([OsRemove tmp] ++ evs). split; [done|]. constructor; [done|].
  eapply Forall_impl; [exact HF|]. intros [m| | | | | | |]; simpl; try tauto.
  intros _. apply Q4.
Qed.
End run_claims.

Section strategy_claims.
Context (w : World) {doc : Type} `{!FPDF doc}.
Context (cfg : Config) (up : Upload) (tmp : path).

Lemma emitting_ocr_loop (Q : event → Prop) images i n :
  (∀ m, Q (Ui m)) → (∀ img l, Q (ImageToString img l)) →
  preserves (emitting Q) (ocr_loop w cfg images i n).
Proof.
  intros Q1 Q2 s. unfold exec. rewrite ocr_loop_run. eexists. split; [done|].
  revert i. induction images as [|img rest IH]; intros i; simpl; [done|].
  repeat constructor; auto. destruct (image_to_string _ _ _); auto.
Qed.

Lemma emitting_ocr_fallback (Q : event → Prop) :
  (∀ m, Q (Ui m)) → (∀ p, Q (Preflight p)) →
  (∀ data dpi fl p, Q (ConvertFromBytes data dpi fl p)) →
  (∀ p, Q (OsRemove p)) → (∀ img l, Q (ImageToString img l)) →
  preserves (emitting Q) (ocr_fallback w cfg up).
Proof.
  intros Q1 Q2 Q3 Q4 Q5. pose proof (emitting_ocr_loop Q) as Hloop.
  unfold ocr_fallback, perform_ocr, is_poppler_installed.
  eauto 30 with py.
Qed.

(** C4. One strategy's output at most is kept. When native extraction
    leaves more than 100 stripped characters (and OCR is not forced), the
    run makes no call of the fallback, neither preflight nor rasterization
    nor OCR, and ends with the native text. When the OCR branch is entered
    (the fallback condition holds and the preflight passes) the run ends
    with the OCR output alone, which is built from the OCR results only;
    and a run in which any OCR call was made ends that way. With OCR
    forced the fallback condition holds whatever the document, and native
    extraction is not called at all. *)
Theorem one_strategy_is_authoritative s :
  let s1 := after_native w cfg tmp s in
  let s' := exec (process w cfg up tmp) s in
  (fallback_all_pages cfg = false → 100 < len (strip (extracted_text s1)) →
     extracted_text s' = extracted_text s1
     ∧ emitting (λ ev, ¬ fallback_call ev) s s')
  ∧ (fallback_triggered cfg s1 = true → preflight_passes w (pp cfg) = true →
     extracted_text s' = ocr_output w cfg up)
  ∧ (∀ evs, trace s' = trace s ++ evs → Exists ocr_call evs →
     extracted_text s' = ocr_output w cfg up)
  ∧ (fallback_all_pages cfg = true →
     fallback_triggered cfg s1 = true
     ∧ emitting (λ ev, ¬ native_call ev) s s').
Proof.
  cbv zeta. split_and!.
  - intros Hforce Hlen.
    assert (fallback_triggered cfg (after_native w cfg tmp s) = false) as Htrig.
    { unfold fallback_triggered. rewrite Hforce, orb_false_r.
      apply Nat.ltb_ge. lia. }
    split.
    + rewrite process_text_selected. by rewrite Htrig.
    + apply process_emitting; simpl; try tauto.
      unfold exec. rewrite ocr_fallback_skipped by done. reflexivity.
  - intros Htrig Hpass. rewrite process_text_selected. by rewrite Htrig, Hpass.
  - intros evs Hevs Hocr. rewrite process_text_selected.
    destruct (fallback_triggered cfg (after_native w cfg tmp s)
              && preflight_passes w (pp cfg)) eqn:Hbranch; [done|].
    exfalso.
    assert (emitting (λ ev, ¬ ocr_call ev) s (exec (process w cfg up tmp) s))
      as (evs' & Hevs' & HF).
    { apply process_emitting; simpl; try tauto.
      by apply ocr_fallback_without_ocr. }
    rewrite Hevs in Hevs'. apply app_inv_head in Hevs' as ->.
    apply Exists_exists in Hocr as (ev & Hin & Hev).
    eapply Forall_forall in HF; [|exact Hin]. done.
  - intros Hforce. split.
    + unfold fallback_triggered. rewrite Hforce. apply orb_true_r.
    + etrans.
      * destruct (emitting_after_native_forced w cfg tmp s Hforce)
          as (evs & Heq & HF).
        exists evs. split; [done|].
        eapply Forall_impl; [exact HF|]. simpl. tauto.
      * destruct (process_trace w cfg up tmp s) as (evs & HF & Heq).
        etrans; [apply (emitting_ocr_fallback (λ ev, ¬ native_call ev));
                 simpl; tauto|].
        exists ([OsRemove tmp] ++ evs). split; [done|].
        constructor; [simpl; tauto|].
        eapply Forall_impl; [exact HF|]. intros []; simpl; tauto.
Qed.
End strategy_claims.

(** C4, on an upload with a text layer of 120 characters: unforced, the
    run ends with the native text; forced, with the OCR output alone. *)
Lemma one_strategy_is_authoritative_witness :
  extracted_text
    (exec (process text_layer default_config hello_pdf
             (named_temporary_file text_layer)) (uploaded text_layer hello_pdf))
    = page_chunk 0 (concat (replicate 10 (lit "Hello World ")))
  ∧ extracted_text
      (exec (process text_layer force_ocr hello_pdf
               (named_temporary_file text_layer)) (uploaded text_layer hello_pdf))
    = page_chunk 0 (lit "recognized text")
  ∧ fallback_triggered force_ocr
      (after_native text_layer force_ocr (named_temporary_file text_layer)
         (uploaded text_layer hello_pdf)) = true.
Proof.
  split_and!.
  - destruct (one_strategy_is_authoritative text_layer default_config hello_pdf
                (named_temporary_file text_layer) (uploaded text_layer hello_pdf))
      as (H1 & _).
    destruct H1 as [Ht _]; [reflexivity | vm_compute; lia |].
    etrans; [exact Ht|]. vm_compute. reflexivity.
  - destruct (one_strategy_is_authoritative text_layer force_ocr hello_pdf
                (named_temporary_file text_layer) (uploaded text_layer hello_pdf))
      as (_ & H2 & _).
    etrans; [apply H2; vm_compute; reflexivity|]. vm_compute. reflexivity.
  - by apply (one_strategy_is_authoritative text_layer force_ocr hello_pdf
                (named_temporary_file text_layer) (uploaded text_layer hello_pdf)).
Defined.

Section discard_claim.
Context (w : World) {doc : Type} `{!FPDF doc}.
Context (cfg : Config) (up : Upload) (tmp : path).

End discard_claim.



(** At the threshold itself the fallback is a no-op, whatever the world. *)
Lemma ocr_fallback_at_threshold w cfg up s :
  fallback_all_pages cfg = false →
  len (strip (extracted_text s)) = 100 →
  ocr_fallback w cfg up s = (Ret (), s).
Proof.
  intros Hforce Hlen. apply ocr_fallback_skipped.
  unfold fallback_triggered. by rewrite Hforce, Hlen.
Qed.

(** C2 (defect of the code). With a native accumulator of exactly 100
    stripped characters and OCR not forced, the run neither reports native
    success ([> 100]) nor enters the fallback ([< 100]): no preflight, no
    rasterization and no OCR call are made although Poppler and Tesseract
    are available, and the 100 characters are presented as the result. *)
Theorem fallback_skipped_at_exactly_100 :
  let s' := exec (main boundary default_config (Some hello_pdf)) fresh in
  fallback_all_pages default_config = false
  ∧ preflight_passes boundary (pp default_config) = true
  ∧ extracted_text s' = page_chunk 0 (replicate 85 97%N)
  ∧ len (strip (extracted_text s')) = 100
  ∧ Forall (λ ev, ¬ fallback_call ev) (trace s')
  ∧ Forall (λ ev, ev ≠ Ui success_native) (trace s')
  ∧ presented (trace s') = [page_chunk 0 (replicate 85 97%N)].
Proof.
  cbv zeta. split_and!.
  - reflexivity.
  - reflexivity.
  - vm_compute. reflexivity.
  - vm_compute. reflexivity.
  - set (tr := trace _). vm_compute in tr. subst tr.
    repeat constructor; simpl; tauto.
  - set (tr := trace _). vm_compute in tr. subst tr.
    repeat constructor; discriminate.
  - vm_compute. reflexivity.
Qed.

Section marker_claim.
Context (w : World) {doc : Type} `{!FPDF doc} (cfg : Config).

(** [main] up to the call of [process]. *)
Lemma main_run up s :
  let tmp := named_temporary_file w in
  let started m := {| fs := m; trace := trace s ++ [Ui info_processing];
                      extracted_text := [] |} in
  main w cfg (Some up) s =
  match io_fault w IoOpenW tmp with
  | Some e => (Raise e, started (fs s))
  | None =>
      match io_fault w IoWrite tmp with
      | Some e => (Raise e, started (<[tmp := []]> (fs s)))
      | None =>
          process w cfg up tmp
            (started (<[tmp := file_bytes up]> (<[tmp := []]> (fs s))))
      end
  end.
Proof.
  cbv zeta. unfold main. step. step. unfold open_wb, f_write, fault.
  unfold py_bind at 1. unfold py_bind at 1.
  destruct (io_fault w IoOpenW (named_temporary_file w)); [done|].
  unfold method at 1. unfold py_bind at 1. unfold py_bind at 1.
  by destruct (io_fault w IoWrite (named_temporary_file w)).
Qed.


End marker_claim.

Lemma encode_latin1_nonempty out :
  out ≠ [] → forallb latin1 out = true →
  ∃ pdf_bytes, encode_latin1 out = Ret pdf_bytes ∧ pdf_bytes ≠ [].
Proof.
  intros Hne Hlat. unfold encode_latin1. rewrite Hlat. eexists. split; [done|].
  destruct out as [|c out]; [done|]. cbn in Hlat |- *.
  apply andb_prop in Hlat as [Hc _].
  destruct (Byte.of_N c) eqn:Hof; [done|].
  apply Byte.of_N_None_iff in Hof. unfold latin1 in Hc.
  apply N.ltb_lt in Hc. lia.
Qed.

(** Splitting at the newlines neither adds nor loses a character that
    Latin-1 cannot encode. *)
Lemma latin1_split_nl text :
  forallb (forallb latin1) (split_nl text) = forallb latin1 text.
Proof.
  induction text as [|c r IH]; [done|]. cbn [split_nl forallb].
  destruct (c =? NL)%N eqn:Hc.
  - apply N.eqb_eq in Hc as ->. cbn [forallb]. by rewrite IH.
  - destruct (split_nl r) as [|l ls]; cbn [forallb] in *;
      [by rewrite <- IH, andb_true_r|].
    by rewrite <- IH, andb_assoc.
Qed.

Lemma latin1_drawn_lines lines :
  forallb latin1 (concat ((λ line, line ++ [NL]) <$> List.filter truthy lines))
  = forallb (forallb latin1) lines.
Proof.
  induction lines as [|line rest IH]; [done|].
  destruct line as [|c line]; [done|].
  cbn [List.filter truthy fmap list_fmap concat].
  rewrite !forallb_app, IH. cbn [forallb]. by rewrite !andb_true_r.
Qed.

Lemma latin1_page_of text title :
  forallb latin1 (page_of text title) = forallb latin1 (title ++ text).
Proof.
  unfold page_of.
  by rewrite !forallb_app, latin1_drawn_lines, latin1_split_nl.
Qed.

(** On this library no line makes [multi_cell] raise: the loop draws every
    non-empty line as it is and never reaches its [except] branch. *)
Lemma render_lines_draws lines page :
  render_lines lines page
  = (Ret (), page ++ concat ((λ line, line ++ [NL]) <$> List.filter truthy lines)).
Proof.
  revert page. induction lines as [|line rest IH]; intros page;
    [by rewrite app_nil_r|].
  cbn [render_lines]. unfold py_bind. destruct line as [|c line].
  - cbn. apply IH.
  - cbn -[render_lines]. rewrite IH. f_equal.
    rewrite <- !app_assoc. cbn [app]. by rewrite <- app_assoc.
Qed.

Lemma create_pdf_body_run text title :
  create_pdf_body text title FPDF_new
  = (match encode_latin1 (page_of text title) with
     | Ret _ => encode_latin1 (lit "%PDF-1.3" ++ [NL] ++ page_of text title
                               ++ lit "%%EOF" ++ [NL])
     | Raise e => Raise e
     end, page_of text title).
Proof.
  unfold create_pdf_body, py_bind at 1 2 3 4 5 6. cbn -[render_lines encode_latin1].
  unfold py_bind at 1. rewrite render_lines_draws.
  unfold py_bind, build_file, call, page_of.
  rewrite <- !app_assoc. cbn [app].
  by destruct (encode_latin1 _).
Qed.

(** C3 (defect of the code). A text that mixes ASCII lines with a line
    outside Latin-1 makes [create_pdf_from_text] raise
    [UnicodeEncodeError], and no placeholder is written. On the library
    the script runs on, the text calls accept every line, so the page
    holds the title and every non-empty line as given, and the encoding
    fails in [pdf.output], after the loop and outside its [try]: the
    function returns a non-empty buffer exactly when every character of
    the title and of the text is in Latin-1, and raises otherwise. *)
Theorem encoding_failure_escapes_the_line_guard :
  create_pdf_from_text mixed_text (lit "Extracted from a.pdf")
  = Raise "UnicodeEncodeError"
  ∧ ∀ text title,
      exec (create_pdf_body text title) FPDF_new = page_of text title
      ∧ if forallb latin1 (title ++ text)
        then ∃ pdf_bytes, create_pdf_from_text text title = Ret pdf_bytes
                          ∧ pdf_bytes ≠ []
        else create_pdf_from_text text title = Raise "UnicodeEncodeError".
Proof.
  assert (∀ text title,
      exec (create_pdf_body text title) FPDF_new = page_of text title
      ∧ if forallb latin1 (title ++ text)
        then ∃ pdf_bytes, create_pdf_from_text text title = Ret pdf_bytes
                          ∧ pdf_bytes ≠ []
        else create_pdf_from_text text title = Raise "UnicodeEncodeError")
    as Hall.
  { intros text title. unfold exec, create_pdf_from_text, result.
    rewrite create_pdf_body_run. split; [done|]. cbn [fst].
    rewrite <- latin1_page_of. unfold encode_latin1 at 1 3.
    destruct (forallb latin1 (page_of text title)) eqn:Hpage; [|done].
    apply encode_latin1_nonempty; [done|].
    by rewrite !forallb_app, Hpage. }
  split; [|exact Hall].
  by destruct (Hall mixed_text (lit "Extracted from a.pdf")) as [_ H].
Qed.

(** ** Further properties of the script *)

(** *** Each phase, in full *)

Section exact_runs.
Context (w : World) {doc : Type} `{!FPDF doc}.
Context (cfg : Config) (up : Upload) (tmp : path).

Lemma page_count_probe_run s :
  page_count_probe w tmp s =
  (Ret (), {| fs := fs s; trace := trace s ++ probe_trace w tmp (fs s);
              extracted_text := extracted_text s |}).
Proof.
  unfold page_count_probe, probe_trace, try_except.
  step. unfold py_bind at 1. rewrite read_run. cbn [fs].
  destruct (read_result w (fs s) tmp) as [data|e].
  - step. destruct (fitz_len w data); unfold st, emit;
      cbn [fs trace extracted_text]; by rewrite <- app_assoc.
  - unfold st, emit. cbn [fs trace extracted_text]. by rewrite <- app_assoc.
Qed.

Lemma native_extraction_run s :
  native_extraction w tmp s =
  (Ret (), {| fs := fs s; trace := trace s ++ native_trace w tmp s;
              extracted_text := native_text w tmp s |}).
Proof.
  unfold native_extraction, native_trace, native_text, native_pages, try_except.
  step. unfold py_bind at 1. rewrite read_run. cbn [fs].
  destruct (read_result w (fs s) tmp) as [data|e].
  - step. destruct (pdfplumber_pages w data) as [pages|e].
    + unfold py_bind at 1. rewrite native_loop_run.
      destruct (first_raise pages).
      * step. unfold set_text, with_text. cbn [fs trace extracted_text].
        by rewrite <- !app_assoc.
      * step. cbn [fs trace extracted_text].
        destruct (Nat.ltb _ _); unfold st, emit, py_ret;
          cbn [fs trace extracted_text]; by rewrite <- !app_assoc, ?app_nil_r.
    + step. unfold set_text, with_text. cbn [fs trace extracted_text].
      by rewrite <- !app_assoc.
  - step. unfold set_text, with_text. cbn [fs trace extracted_text].
    by rewrite <- !app_assoc.
Qed.

Lemma is_poppler_installed_exact custom_path s :
  is_poppler_installed w custom_path s =
  (Ret (preflight_passes w custom_path),
   {| fs := preflight_fs w custom_path (fs s);
      trace := trace s ++ preflight_trace w custom_path;
      extracted_text := extracted_text s |}).
Proof.
  unfold is_poppler_installed, preflight_passes, preflight_fs, preflight_trace,
    preflight_passes, probe_rasterization, no_fault,
    open_wb, f_write, read, os_remove, convert, fault, emit.
  unfold try_except, py_bind, py_ret, call, method, with_fs.
  cbn -[test_pdf].
  destruct (io_fault w IoOpenW (test_file w)); cbn -[test_pdf]; [done|].
  destruct (io_fault w IoWrite (test_file w)); cbn -[test_pdf]; [done|].
  rewrite insert_insert_eq.
  destruct (io_fault w IoRead (test_file w)); cbn -[test_pdf]; [done|].
  rewrite lookup_insert_eq. cbn -[test_pdf].
  destruct (convert_from_bytes w test_pdf 200 (Some (1, 1)) custom_path);
    cbn -[test_pdf]; [|by rewrite <- !app_assoc].
  destruct (io_fault w IoRemove (test_file w)); cbn -[test_pdf];
    [by rewrite <- !app_assoc|].
  rewrite lookup_insert_eq. cbn -[test_pdf].
  by rewrite delete_insert_eq, <- !app_assoc.
Qed.

Lemma ocr_fallback_run s :
  ocr_fallback w cfg up s =
  (Ret (),
   {| fs := if fallback_triggered cfg s
            then preflight_fs w (pp cfg) (fs s) else fs s;
      trace := trace s ++ fallback_trace w cfg up s;
      extracted_text :=
        if fallback_triggered cfg s && preflight_passes w (pp cfg)
        then ocr_output w cfg up else extracted_text s |}).
Proof.
  unfold fallback_trace. destruct (fallback_triggered cfg s) eqn:Htrig.
  - unfold ocr_fallback. step. fold (fallback_triggered cfg s). rewrite Htrig.
    step. unfold py_bind at 1. fold (pp cfg).
    rewrite is_poppler_installed_exact. cbn [fs trace extracted_text andb].
    destruct (preflight_passes w (pp cfg)); cbn [negb].
    + rewrite perform_ocr_run. cbn [fs trace extracted_text].
      by rewrite <- !app_assoc.
    + unfold st, emit. cbn [fs trace extracted_text].
      by rewrite <- !app_assoc.
  - rewrite ocr_fallback_skipped by done. rewrite app_nil_r. by destruct s.
Qed.

Lemma after_native_run s :
  after_native w cfg tmp s =
  {| fs := fs s; trace := trace s ++ strategy_a_trace w cfg tmp s;
     extracted_text := if fallback_all_pages cfg then extracted_text s
                       else native_text w tmp s |}.
Proof.
  unfold after_native, strategy_a_trace, exec, py_bind.
  rewrite page_count_probe_run.
  destruct (fallback_all_pages cfg); cbn [negb].
  - unfold py_ret. cbn. by rewrite app_nil_r.
  - rewrite native_extraction_run. cbn. by rewrite <- app_assoc.
Qed.

(** The whole of [process]: it returns, and its trace grows by the events
    of its phases. *)
Lemma process_exact s :
  result (process w cfg up tmp) s = Ret ()
  ∧ trace (exec (process w cfg up tmp) s)
    = trace s ++ process_events w cfg up tmp s.
Proof.
  split; [by destruct (total_process w cfg up tmp s) as [[] ?]|].
  unfold process_events.
  set (t := extracted_text (exec (process w cfg up tmp) s)).
  assert (t = extracted_text (exec (ocr_fallback w cfg up)
                                (after_native w cfg tmp s))) as Ht
    by apply process_text.
  rewrite exec_process. unfold exec at 1. rewrite show_result_run.
  cbn [snd trace]. fold (show_trace up
    (extracted_text (exec (cleanup w tmp)
       (exec (ocr_fallback w cfg up) (after_native w cfg tmp s))))).
  unfold exec at 1 3. rewrite cleanup_run. cbn [snd trace extracted_text].
  fold (exec (ocr_fallback w cfg up) (after_native w cfg tmp s)).
  rewrite <- Ht. unfold exec. rewrite ocr_fallback_run. cbn [snd trace].
  rewrite after_native_run at 1. cbn [trace]. by rewrite <- !app_assoc.
Qed.
End exact_runs.

(** *** The file system and the uploaded bytes *)

Section files.
Context (w : World) {doc : Type} `{!FPDF doc} (cfg : Config).

Lemma preflight_fs_other (custom_path : option pystr)
    (m : gmap path bytes) (p : path) :
  p ≠ test_file w → preflight_fs w custom_path m !! p = m !! p.
Proof.
  intros Hp. unfold preflight_fs.
  repeat case_match; rewrite ?lookup_insert_ne, ?lookup_delete_ne; done.
Qed.

Lemma process_fs up tmp s :
  fs (exec (process w cfg up tmp) s) =
  let m := if fallback_triggered cfg (after_native w cfg tmp s)
           then preflight_fs w (pp cfg) (fs s) else fs s in
  if no_fault w IoRemove tmp then delete tmp m else m.
Proof.
  cbv zeta. rewrite exec_process.
  rewrite (fs_show_result up _ : fs (exec _ _) = _).
  unfold exec at 1. rewrite cleanup_run. cbn [snd fs].
  unfold exec at 1 2. rewrite ocr_fallback_run. cbn [snd fs].
  assert (fs (after_native w cfg tmp s) = fs s) as ->; [|done].
  by rewrite after_native_run.
Qed.

(** X1. A run reads and writes two files only: its temporary copy of the
    upload and the [test.pdf] of the preflight. Every other path of the
    file system holds at the end what it held at the start, whatever the
    libraries answer. *)
Theorem run_touches_two_files_only uploaded_file s p :
  p ≠ named_temporary_file w → p ≠ test_file w →
  fs (exec (main w cfg uploaded_file) s) !! p = fs s !! p.
Proof.
  intros Htmp Htest. destruct uploaded_file as [up|]; [|done].
  unfold exec. rewrite main_run.
  destruct (io_fault w IoOpenW _); [done|].
  destruct (io_fault w IoWrite _); cbn [snd fs];
    [by rewrite lookup_insert_ne|].
  fold (exec (process w cfg up (named_temporary_file w))
          {| fs := <[named_temporary_file w:=file_bytes up]>
                     (<[named_temporary_file w:=[]]> (fs s));
             trace := trace s ++ [Ui info_processing];
             extracted_text := [] |}).
  rewrite process_fs. cbv zeta. cbn [fs].
  repeat case_match;
    rewrite ?lookup_delete_ne, ?preflight_fs_other, ?lookup_insert_ne; done.
Qed.

(** X2. When the temporary copy can be created, written and read, the
    bytes read back from it are the uploaded bytes, whatever the file
    system held before, and the text native extraction leaves is the one
    the text-layer reader gives for those bytes. *)
Theorem uploaded_bytes_reach_the_readers up s :
  let tmp := named_temporary_file w in
  io_fault w IoOpenW tmp = None → io_fault w IoWrite tmp = None →
  io_fault w IoRead tmp = None →
  ∃ s0,
    main w cfg (Some up) s = process w cfg up tmp s0
    ∧ result (read w tmp) s0 = Ret (file_bytes up)
    ∧ native_pages w tmp s0 = pdfplumber_pages w (file_bytes up)
    ∧ (fallback_all_pages cfg = false →
       extracted_text (after_native w cfg tmp s0) =
       match pdfplumber_pages w (file_bytes up) with
       | Raise _ => []
       | Ret pages =>
           match first_raise pages with
           | Some _ => []
           | None => render (native_chunks pages 0)
           end
       end).
Proof.
  cbv zeta. intros Ho Hw Hr. eexists. split_and!.
  - rewrite main_run. cbv zeta. by rewrite Ho, Hw.
  - unfold result. rewrite read_run. unfold read_result. cbn [fst fs].
    by rewrite Hr, lookup_insert_eq.
  - unfold native_pages, read_result. cbn [fs]. by rewrite Hr, lookup_insert_eq.
  - intros Hforce. rewrite after_native_text, Hforce.
    unfold native_pages, read_result. cbn [fs extracted_text].
    by rewrite Hr, lookup_insert_eq.
Qed.

(** X4. A failure while the temporary copy is written is not caught: the
    run ends with that exception before any extraction is attempted, and
    the copy, created empty, stays on disk. *)
Theorem failed_copy_aborts_the_run up s e :
  let tmp := named_temporary_file w in
  io_fault w IoOpenW tmp = None → io_fault w IoWrite tmp = Some e →
  result (main w cfg (Some up)) s = Raise e
  ∧ trace (exec (main w cfg (Some up)) s) = trace s ++ [Ui info_processing]
  ∧ fs (exec (main w cfg (Some up)) s) !! tmp = Some [].
Proof.
  cbv zeta. intros Ho Hw. unfold result, exec. rewrite main_run. cbv zeta.
  rewrite Ho, Hw. cbn [fst snd trace fs]. split_and!; try done.
  apply lookup_insert_eq.
Qed.
End files.

Section page_count.
Context (w : World) {doc : Type} `{!FPDF doc} (cfg : Config).

(** X3. The page-count probe is informative only: with any other answer
    of the page counter, failure included, a run ends with the same text,
    the same files, and the same calls to the OCR engine. *)
Theorem page_count_is_informative_only f up tmp s :
  let s' := exec (process w cfg up tmp) s in
  let s'' := exec (process (with_fitz_len f w) cfg up tmp) s in
  extracted_text s'' = extracted_text s'
  ∧ fs s'' = fs s'
  ∧ ocr_calls (trace s'') = ocr_calls (trace s')
  ∧ presented (trace s'') = presented (trace s').
Proof.
  cbv zeta.
  assert (extracted_text (exec (process (with_fitz_len f w) cfg up tmp) s)
          = extracted_text (exec (process w cfg up tmp) s)) as Ht.
  { rewrite !process_text_selected, !after_native_run. reflexivity. }
  split_and!.
  - done.
  - rewrite !process_fs. cbv zeta. rewrite !after_native_run. reflexivity.
  - destruct (process_exact w cfg up tmp s) as [_ ->].
    destruct (process_exact (with_fitz_len f w) cfg up tmp s) as [_ ->].
    unfold process_events. rewrite Ht. unfold ocr_calls.
    rewrite !omap_app. rewrite !after_native_run.
    unfold strategy_a_trace. rewrite !omap_app. f_equal. f_equal.
    f_equal. unfold probe_trace. cbn.
    by repeat case_match.
  - destruct (process_exact w cfg up tmp s) as [_ ->].
    destruct (process_exact (with_fitz_len f w) cfg up tmp s) as [_ ->].
    unfold process_events. rewrite Ht. unfold presented.
    rewrite !omap_app. rewrite !after_native_run.
    unfold strategy_a_trace. rewrite !omap_app. f_equal. f_equal.
    f_equal. unfold probe_trace. cbn.
    by repeat case_match.
Qed.
End page_count.

(** *** The calls of a run *)

Lemma Forall_native_events (Q : event → Prop) pages i :
  (∀ j, Q (ExtractText j)) → Forall Q (native_events pages i).
Proof.
  intros HQ. revert i.
  induction pages as [|[?|?] rest IH]; intros i; simpl; auto.
Qed.

Lemma split_after_prefix (P : event → Prop) pre rest a x b :
  Forall (λ ev, ¬ P ev) pre → P x → pre ++ rest = a ++ x :: b →
  ∃ a', a = pre ++ a' ∧ rest = a' ++ x :: b.
Proof.
  intros Hpre Hx. revert a.
  induction Hpre as [|y pre Hy Hpre IH]; intros a Heq; [by exists a|].
  destruct a as [|y' a]; simpl in Heq; injection Heq as -> Heq; [done|].
  destruct (IH a Heq) as (a' & -> & ->). by exists a'.
Qed.

Lemma ocr_calls_none tr : Forall (λ ev, ¬ ocr_call ev) tr → ocr_calls tr = [].
Proof.
  induction 1 as [|ev tr Hev _ IH]; [done|]. unfold ocr_calls in *.
  destruct ev; simpl in *; tauto.
Qed.

Lemma ocr_calls_elem img l tr : ImageToString img l ∈ tr → img ∈ ocr_calls tr.
Proof.
  intros Hin. unfold ocr_calls. apply list_elem_of_omap.
  by exists (ImageToString img l).
Qed.

Section calls.
Context (w : World) {doc : Type} `{!FPDF doc}.
Context (cfg : Config) (up : Upload) (tmp : path).

Lemma Forall_strategy_a (Q : event → Prop) s :
  Q (FitzOpen tmp) → Q (PlumberOpen tmp) → (∀ j, Q (ExtractText j)) →
  (∀ n, Q (Ui (info_page_count n))) → (∀ e, Q (Ui (warning_page_count e))) →
  (∀ e, Q (Ui (warning_native e))) →
  (fallback_all_pages cfg = false →
   100 < len (strip (native_text w tmp s)) → Q (Ui success_native)) →
  Forall Q (strategy_a_trace w cfg tmp s).
Proof.
  intros Q1 Q2 Q3 Q4 Q5 Q6 Q7. unfold strategy_a_trace. apply Forall_app. split.
  - unfold probe_trace. repeat case_match; repeat constructor; auto.
  - destruct (fallback_all_pages cfg); [constructor|].
    unfold native_trace. constructor; [done|].
    destruct (native_pages w tmp s) as [pages|e]; [|by repeat constructor].
    apply Forall_app. split; [by apply Forall_native_events|].
    destruct (first_raise pages); [by repeat constructor|].
    destruct (Nat.ltb _ _) eqn:Hlt; repeat constructor.
    apply Q7; [done|]. by apply Nat.ltb_lt.
Qed.

Lemma Forall_preflight_trace (Q : event → Prop) custom_path :
  Q (Preflight custom_path) →
  Q (ConvertFromBytes test_pdf 200 (Some (1, 1)) custom_path) →
  Q (OsRemove (test_file w)) →
  Forall Q (preflight_trace w custom_path).
Proof.
  intros Q1 Q2 Q3. unfold preflight_trace.
  repeat case_match; repeat constructor; auto.
Qed.

Lemma Forall_ocr_events (Q : event → Prop) images i n :
  (∀ j, i ≤ j → j < i + length images → Q (Ui (progress (j + 1) n))) →
  (∀ img, Q (ImageToString img (ocr_lang cfg))) →
  (∀ j, Q (Ui (info_processed j n))) → (∀ j e, Q (Ui (error_ocr_page j e))) →
  Forall Q (ocr_events w cfg images i n).
Proof.
  intros Q1 Q2 Q3 Q4. revert i Q1.
  induction images as [|img rest IH]; intros i Q1; simpl; [constructor|].
  repeat constructor; auto.
  - apply Q1; simpl; lia.
  - by destruct (image_to_string _ _ _).
  - apply IH. intros j Hj1 Hj2. apply Q1; simpl; lia.
Qed.

Lemma Forall_show_trace (Q : event → Prop) t :
  Q (Ui success_complete) → Q (Ui (text_area t)) → Q (Ui (download_text t)) →
  (∀ data, Q (Ui (download_pdf data))) → (∀ e, Q (Ui (error_pdf e))) →
  Q (Ui error_failed) → Q (Ui tips) →
  Forall Q (show_trace up t).
Proof.
  intros Q1 Q2 Q3 Q4 Q5 Q6 Q7. unfold show_trace.
  apply Forall_app. split; [|by repeat constructor].
  destruct (truthy _); repeat constructor; auto.
  by destruct (create_pdf_from_text _ _).
Qed.

(** X5. Every call of a run uses the configuration as given: the
    preflight and both rasterizations receive the configured Poppler path
    (or [None] when it is empty), the upload is rasterized whole, from the
    bytes in memory, at the configured DPI, the probe rasterizes page 1 of
    the synthetic document at 200 DPI, and every OCR call reads in the
    configured language. *)
Theorem configuration_is_honoured s :
  ∃ evs, trace (exec (process w cfg up tmp) s) = trace s ++ evs
         ∧ Forall (honours cfg up) evs.
Proof.
  destruct (process_exact w cfg up tmp s) as [_ ->]. eexists. split; [done|].
  unfold process_events. rewrite !Forall_app. split_and!.
  - apply Forall_strategy_a; simpl; auto.
  - unfold fallback_trace. destruct (fallback_triggered _ _); [|constructor].
    constructor; [done|]. apply Forall_app. split.
    + by apply Forall_preflight_trace.
    + destruct (preflight_passes _ _); [|by repeat constructor].
      unfold ocr_trace. constructor; [done|].
      destruct (rasterization w cfg up); [|by repeat constructor].
      repeat (apply Forall_app; split); try by repeat constructor.
      apply Forall_ocr_events; simpl; auto.
  - by repeat constructor.
  - by apply Forall_show_trace.
Qed.

(** X6. Every progress update of a run is a fraction in (0, 1]: the
    number of pages done is at least 1 and at most the number of page
    images, so the division never has a zero denominator and the bar
    never receives a value out of range. *)
Theorem progress_stays_in_range s :
  ∃ evs, trace (exec (process w cfg up tmp) s) = trace s ++ evs
         ∧ Forall progress_in_range evs.
Proof.
  destruct (process_exact w cfg up tmp s) as [_ ->]. eexists. split; [done|].
  unfold process_events. rewrite !Forall_app. split_and!.
  - apply Forall_strategy_a; simpl; auto.
  - unfold fallback_trace. destruct (fallback_triggered _ _); [|constructor].
    constructor; [done|]. apply Forall_app. split.
    + by apply Forall_preflight_trace.
    + destruct (preflight_passes _ _); [|by repeat constructor].
      unfold ocr_trace. constructor; [done|].
      destruct (rasterization w cfg up); [|by repeat constructor].
      repeat (apply Forall_app; split); try by repeat constructor.
      apply Forall_ocr_events; simpl; auto. intros j _ Hj. lia.
  - by repeat constructor.
  - by apply Forall_show_trace.
Qed.
End calls.

Section ocr_order.
Context (w : World) {doc : Type} `{!FPDF doc}.
Context (cfg : Config) (up : Upload) (tmp : path).

Lemma ocr_calls_ocr_events images i n :
  ocr_calls (ocr_events w cfg images i n) = images.
Proof.
  revert i. induction images as [|img rest IH]; intros i; [done|].
  unfold ocr_calls in *. simpl. rewrite IH.
  by destruct (image_to_string _ _ _).
Qed.

Lemma strategy_a_no_ocr s :
  Forall (λ ev, ¬ ocr_call ev) (strategy_a_trace w cfg tmp s).
Proof. apply Forall_strategy_a; simpl; auto. Qed.

Lemma preflight_no_ocr custom_path :
  Forall (λ ev, ¬ ocr_call ev) (preflight_trace w custom_path).
Proof. apply Forall_preflight_trace; simpl; auto. Qed.

Lemma show_no_ocr t : Forall (λ ev, ¬ ocr_call ev) (show_trace up t).
Proof. apply Forall_show_trace; simpl; auto. Qed.

Lemma ocr_calls_app l1 l2 : ocr_calls (l1 ++ l2) = ocr_calls l1 ++ ocr_calls l2.
Proof. apply omap_app. Qed.

Lemma ocr_calls_cons ev l : ¬ ocr_call ev → ocr_calls (ev :: l) = ocr_calls l.
Proof. intros Hev. destruct ev; simpl in *; tauto. Qed.

(** The page images a run rasterizes for OCR, if it enters the OCR branch. *)
Lemma ocr_calls_process_events s :
  ocr_calls (process_events w cfg up tmp s) =
  if fallback_triggered cfg (after_native w cfg tmp s)
     && preflight_passes w (pp cfg)
  then match rasterization w cfg up with
       | Ret images => images
       | Raise _ => []
       end
  else [].
Proof.
  unfold process_events. rewrite !ocr_calls_app.
  rewrite (ocr_calls_none _ (strategy_a_no_ocr s)), (ocr_calls_none _ (show_no_ocr _)).
  rewrite app_nil_r. cbn [app]. unfold fallback_trace.
  destruct (fallback_triggered _ _); [|done]. cbn [andb].
  rewrite ocr_calls_cons, ocr_calls_app by (simpl; tauto).
  rewrite (ocr_calls_none _ (preflight_no_ocr _)). cbn [app].
  destruct (preflight_passes _ _); [|done].
  unfold ocr_trace. rewrite ocr_calls_cons by (simpl; tauto).
  destruct (rasterization w cfg up) as [images|e]; [|done].
  rewrite !ocr_calls_app, ocr_calls_ocr_events. cbn. by rewrite app_nil_r.
Qed.

(** X7. The OCR engine is called on the page images of the upload, each
    exactly once and in page order, whether or not earlier pages failed;
    and it is called on nothing at all unless the fallback condition
    holds, the preflight passes and the rasterization returns. *)
Theorem each_page_image_is_read_once s :
  ocr_calls (trace (exec (process w cfg up tmp) s)) =
  ocr_calls (trace s) ++
  (if fallback_triggered cfg (after_native w cfg tmp s)
      && preflight_passes w (pp cfg)
   then match rasterization w cfg up with
        | Ret images => images
        | Raise _ => []
        end
   else []).
Proof.
  destruct (process_exact w cfg up tmp s) as [_ ->].
  by rewrite ocr_calls_app, ocr_calls_process_events.
Qed.

(** In a run that enters the OCR branch and rasterizes the upload, the
    events up to the first progress update hold no OCR call. *)
Lemma ocr_branch_shape s images :
  fallback_triggered cfg (after_native w cfg tmp s) = true →
  preflight_passes w (pp cfg) = true →
  rasterization w cfg up = Ret images →
  ∃ before rest,
    process_events w cfg up tmp s = before ++ rest
    ∧ Forall (λ ev, ¬ ocr_call ev) before
    ∧ Ui warning_switch_ocr ∈ before
    ∧ Preflight (pp cfg) ∈ before
    ∧ ConvertFromBytes (file_bytes up) (ocr_dpi cfg) None (pp cfg) ∈ before.
Proof.
  intros Htrig Hpass Hrast.
  exists (strategy_a_trace w cfg tmp s
          ++ [Ui warning_switch_ocr] ++ preflight_trace w (pp cfg)
          ++ [ConvertFromBytes (file_bytes up) (ocr_dpi cfg) None (pp cfg);
              Ui (success_converted (length images)); Ui progress_start]),
         (ocr_events w cfg images 0 (length images) ++ [Ui progress_empty]
          ++ [OsRemove tmp]
          ++ show_trace up (extracted_text (exec (process w cfg up tmp) s))).
  split_and!.
  - unfold process_events, fallback_trace, ocr_trace.
    rewrite Htrig, Hpass, Hrast.
    repeat first [rewrite <- app_assoc | progress cbn [app]]. reflexivity.
  - rewrite !Forall_app. split_and!.
    + apply strategy_a_no_ocr.
    + repeat constructor. simpl. tauto.
    + apply preflight_no_ocr.
    + repeat constructor; simpl; tauto.
  - rewrite !elem_of_app, !elem_of_cons. tauto.
  - unfold preflight_trace. rewrite !elem_of_app, !elem_of_cons. tauto.
  - rewrite !elem_of_app, !elem_of_cons. tauto.
Qed.

(** X8. No OCR call is made before the preflight has passed and the
    upload has been rasterized: when a run makes an OCR call, the events
    before it include the switch warning, the preflight and the
    rasterization of the upload, the preflight passed, and the image read
    is one of the page images that rasterization returned. *)
Theorem preflight_precedes_ocr s evs1 img l evs2 :
  trace (exec (process w cfg up tmp) s)
    = trace s ++ evs1 ++ ImageToString img l :: evs2 →
  fallback_triggered cfg (after_native w cfg tmp s) = true
  ∧ preflight_passes w (pp cfg) = true
  ∧ Ui warning_switch_ocr ∈ evs1
  ∧ Preflight (pp cfg) ∈ evs1
  ∧ ConvertFromBytes (file_bytes up) (ocr_dpi cfg) None (pp cfg) ∈ evs1
  ∧ ∃ images, rasterization w cfg up = Ret images ∧ img ∈ images.
Proof.
  destruct (process_exact w cfg up tmp s) as [_ ->]. intros Heq.
  apply app_inv_head in Heq.
  assert (img ∈ ocr_calls (process_events w cfg up tmp s)) as Himg.
  { apply (ocr_calls_elem img l). rewrite Heq.
    apply elem_of_app. right. apply elem_of_cons. by left. }
  rewrite ocr_calls_process_events in Himg.
  destruct (fallback_triggered cfg (after_native w cfg tmp s)) eqn:Htrig;
    [|by apply elem_of_nil in Himg].
  destruct (preflight_passes w (pp cfg)) eqn:Hpass;
    [|by apply elem_of_nil in Himg].
  cbn [andb] in Himg.
  destruct (rasterization w cfg up) as [images|e] eqn:Hrast;
    [|by apply elem_of_nil in Himg].
  destruct (ocr_branch_shape s images Htrig Hpass Hrast)
    as (before & rest & Hshape & Hbefore & H1 & H2 & H3).
  rewrite Hshape in Heq.
  apply (split_after_prefix ocr_call) in Heq as (a' & -> & _);
    [|done|exact I].
  split_and!; try done; try (apply elem_of_app; by left).
  by exists images.
Qed.
End ocr_order.

(** *** What the user is shown *)

Lemma presented_app l1 l2 : presented (l1 ++ l2) = presented l1 ++ presented l2.
Proof. apply omap_app. Qed.

Lemma presented_none tr :
  Forall (λ ev, ∀ t, ev ≠ Ui (text_area t)) tr → presented tr = [].
Proof.
  induction 1 as [|ev tr Hev _ IH]; [done|]. unfold presented in *.
  destruct ev as [[]| | | | | | |]; simpl in *; try done. by destruct (Hev text).
Qed.

(** A rendered page holds a visible character: the dash of its marker. *)
Lemma render_visible chunks : chunks ≠ [] → truthy (strip (render chunks)) = true.
Proof.
  intros Hne. apply truthy_strip. destruct chunks as [|[i t] rest]; [done|].
  cbn [render]. unfold page_chunk, page_marker.
  apply Exists_app. left. apply Exists_app. left.
  apply Exists_cons. right. apply Exists_cons. by left.
Qed.

Section shown.
Context (w : World) {doc : Type} `{!FPDF doc}.
Context (cfg : Config) (up : Upload) (tmp : path).

(** The events of the fallback, case by case. *)
Lemma Forall_fallback_trace (Q : event → Prop) s :
  Q (Ui warning_switch_ocr) → Q (Preflight (pp cfg)) →
  Q (ConvertFromBytes test_pdf 200 (Some (1, 1)) (pp cfg)) →
  Q (OsRemove (test_file w)) →
  (preflight_passes w (pp cfg) = false → Q (Ui error_poppler_missing)) →
  (preflight_passes w (pp cfg) = true →
   Q (ConvertFromBytes (file_bytes up) (ocr_dpi cfg) None (pp cfg))) →
  (∀ e, preflight_passes w (pp cfg) = true →
        rasterization w cfg up = Raise e → Q (Ui (error_ocr e))) →
  (∀ n, Q (Ui (success_converted n))) →
  Q (Ui progress_start) → Q (Ui progress_empty) →
  (∀ j n, Q (Ui (progress j n))) →
  (∀ img, Q (ImageToString img (ocr_lang cfg))) →
  (∀ j n, Q (Ui (info_processed j n))) → (∀ j e, Q (Ui (error_ocr_page j e))) →
  Forall Q (fallback_trace w cfg up s).
Proof.
  intros Q1 Q2 Q3 Q4 Q5 Q6 Q7 Q8 Q9 Q10 Q11 Q12 Q13 Q14.
  unfold fallback_trace. destruct (fallback_triggered cfg s); [|constructor].
  constructor; [done|]. apply Forall_app. split.
  - by apply Forall_preflight_trace.
  - destruct (preflight_passes w (pp cfg)) eqn:Hpass; [|by repeat constructor; auto].
    unfold ocr_trace. constructor; [auto|].
    destruct (rasterization w cfg up) as [images|e] eqn:Hrast;
      [|repeat constructor; by apply Q7].
    rewrite !Forall_app. split_and!; try by repeat constructor.
    by apply Forall_ocr_events.
Qed.

(** The events of a run before the presentation show no result. *)
Lemma processing_shows_nothing s :
  Forall (λ ev, (∀ t, ev ≠ Ui (text_area t)) ∧ ev ≠ Ui error_failed)
    (strategy_a_trace w cfg tmp s
     ++ fallback_trace w cfg up (after_native w cfg tmp s) ++ [OsRemove tmp]).
Proof.
  rewrite !Forall_app. split_and!.
  - apply Forall_strategy_a; done.
  - apply Forall_fallback_trace; done.
  - by repeat constructor.
Qed.

Lemma presented_show_trace t :
  presented (show_trace up t) = if truthy (strip t) then [t] else [].
Proof.
  unfold show_trace. destruct (truthy (strip t)); [|done].
  by destruct (create_pdf_from_text t _).
Qed.

Lemma presented_process_events s :
  presented (process_events w cfg up tmp s) =
  let t := extracted_text (exec (process w cfg up tmp) s) in
  if truthy (strip t) then [t] else [].
Proof.
  cbv zeta. unfold process_events.
  rewrite !app_assoc, presented_app, <- !app_assoc.
  rewrite presented_show_trace, presented_none; [done|].
  eapply Forall_impl; [apply processing_shows_nothing|]. by intros ? [? ?].
Qed.

Lemma error_failed_process_events s :
  Ui error_failed ∈ process_events w cfg up tmp s
  ↔ truthy (strip (extracted_text (exec (process w cfg up tmp) s))) = false.
Proof.
  pose proof (processing_shows_nothing s) as Hquiet.
  unfold process_events. rewrite !app_assoc, elem_of_app, <- !app_assoc. split.
  - intros [Hin|Hin].
    + eapply Forall_forall in Hquiet; [|exact Hin]. by destruct Hquiet.
    + unfold show_trace in Hin. destruct (truthy _); [|done].
      exfalso. rewrite !elem_of_app, !elem_of_cons, elem_of_nil in Hin.
      destruct (create_pdf_from_text _ _); intuition discriminate.
  - intros Hblank. right. unfold show_trace. rewrite Hblank.
    apply elem_of_cons. by left.
Qed.

(** X9. The final text is shown exactly when it holds a character that is
    not white space, and then once; otherwise nothing is shown but the
    final failure message. Nothing before the presentation shows a result
    or that failure message, and the run returns normally either way. *)
Theorem result_is_presented s :
  let s' := exec (process w cfg up tmp) s in
  let t := extracted_text s' in
  result (process w cfg up tmp) s = Ret ()
  ∧ presented (trace s')
    = presented (trace s) ++ (if truthy (strip t) then [t] else [])
  ∧ (truthy (strip t) = true ↔ Exists visible t)
  ∧ ∃ evs, trace s' = trace s ++ evs
           ∧ (Ui error_failed ∈ evs ↔ truthy (strip t) = false).
Proof.
  cbv zeta. destruct (process_exact w cfg up tmp s) as [Hres Htr].
  split_and!; [done| |apply truthy_strip|].
  - by rewrite Htr, presented_app, presented_process_events.
  - eexists. split; [exact Htr|]. apply error_failed_process_events.
Qed.

(** X10. A PDF rendering that fails does not cost the user the text.
    When [create_pdf_from_text] raises on the final text, for whatever
    reason, the run still returns normally, having shown the text once
    and offered the text download; it reports the PDF error in place of
    the PDF download, which is not offered. *)
Theorem pdf_failure_keeps_the_text_download s e :
  let s' := exec (process w cfg up tmp) s in
  let t := extracted_text s' in
  truthy (strip t) = true →
  create_pdf_from_text t (lit "Extracted from " ++ name up) = Raise e →
  result (process w cfg up tmp) s = Ret ()
  ∧ presented (trace s') = presented (trace s) ++ [t]
  ∧ ∃ evs, trace s' = trace s ++ evs
             ++ [Ui success_complete; Ui (text_area t); Ui (download_text t);
                 Ui (error_pdf e); Ui tips]
           ∧ Forall (λ ev, ∀ data, ev ≠ Ui (download_pdf data)) evs.
Proof.
  cbv zeta. intros Htruthy Hraise.
  destruct (process_exact w cfg up tmp s) as [Hres Htr].
  split_and!; [done| |].
  - rewrite Htr, presented_app, presented_process_events. cbv zeta.
    by rewrite Htruthy.
  - exists (strategy_a_trace w cfg tmp s
            ++ fallback_trace w cfg up (after_native w cfg tmp s)
            ++ [OsRemove tmp]).
    split.
    + rewrite Htr. unfold process_events, show_trace.
      rewrite Htruthy, Hraise. by rewrite <- !app_assoc.
    + rewrite !Forall_app. split_and!.
      * apply Forall_strategy_a; done.
      * apply Forall_fallback_trace; done.
      * by repeat constructor.
Qed.

(** X11. When the preflight passes but the rasterization of the upload
    itself raises, the run reports the OCR error, calls no OCR engine and
    ends with an empty text and the final failure message: the text
    native extraction had gathered was reset before the rasterization and
    is not restored. *)
Theorem failed_rasterization_leaves_nothing s e :
  let s' := exec (process w cfg up tmp) s in
  fallback_triggered cfg (after_native w cfg tmp s) = true →
  preflight_passes w (pp cfg) = true →
  rasterization w cfg up = Raise e →
  extracted_text s' = []
  ∧ ocr_calls (trace s') = ocr_calls (trace s)
  ∧ presented (trace s') = presented (trace s)
  ∧ ∃ evs, trace s' = trace s ++ evs
           ∧ Ui (error_ocr e) ∈ evs ∧ Ui error_failed ∈ evs.
Proof.
  cbv zeta. intros Htrig Hpass Hrast.
  destruct (process_exact w cfg up tmp s) as [_ Htr].
  assert (extracted_text (exec (process w cfg up tmp) s) = []) as Ht.
  { rewrite process_text_selected, Htrig, Hpass. unfold ocr_output.
    by rewrite Hrast. }
  split_and!.
  - done.
  - rewrite Htr, ocr_calls_app, ocr_calls_process_events, Htrig, Hpass, Hrast.
    by rewrite app_nil_r.
  - rewrite Htr, presented_app, presented_process_events. cbv zeta.
    rewrite Ht. by rewrite app_nil_r.
  - eexists. split; [exact Htr|]. split.
    + unfold process_events, fallback_trace, ocr_trace.
      rewrite Htrig, Hpass, Hrast.
      rewrite !elem_of_app, !elem_of_cons, !elem_of_app, !elem_of_cons. tauto.
    + apply error_failed_process_events. by rewrite Ht.
Qed.

Lemma ocr_chunks_nonempty images i img text :
  img ∈ images → image_to_string w img (ocr_lang cfg) = Ret text →
  ocr_chunks w cfg images i ≠ [].
Proof.
  intros Hin Hocr. revert i.
  induction images as [|img0 rest IH]; intros i; [by apply elem_of_nil in Hin|].
  simpl. apply elem_of_cons in Hin as [<-|Hin].
  - by rewrite Hocr.
  - destruct (image_to_string w img0 _); [done|]. by apply IH.
Qed.

(** X12. A page whose OCR call returns is always shown, blank or not: as
    soon as one OCR call of the run returns, the final text holds that
    page's marker, so it is presented as a successful extraction and the
    final failure message does not appear, even when the recognized text
    is empty. *)
Theorem an_appended_page_is_always_shown s images img text :
  let s' := exec (process w cfg up tmp) s in
  fallback_triggered cfg (after_native w cfg tmp s) = true →
  preflight_passes w (pp cfg) = true →
  rasterization w cfg up = Ret images →
  img ∈ images → image_to_string w img (ocr_lang cfg) = Ret text →
  extracted_text s' = render (ocr_chunks w cfg images 0)
  ∧ truthy (strip (extracted_text s')) = true
  ∧ presented (trace s') = presented (trace s) ++ [extracted_text s']
  ∧ ∀ evs, trace s' = trace s ++ evs → Ui error_failed ∉ evs.
Proof.
  cbv zeta. intros Htrig Hpass Hrast Hin Hocr.
  destruct (process_exact w cfg up tmp s) as [_ Htr].
  assert (extracted_text (exec (process w cfg up tmp) s)
          = render (ocr_chunks w cfg images 0)) as Ht.
  { rewrite process_text_selected, Htrig, Hpass. unfold ocr_output.
    by rewrite Hrast. }
  assert (truthy (strip (extracted_text (exec (process w cfg up tmp) s))) = true)
    as Hshown.
  { rewrite Ht. apply render_visible. by eapply ocr_chunks_nonempty. }
  split_and!; [done|done| |].
  - rewrite Htr, presented_app, presented_process_events. cbv zeta.
    by rewrite Hshown.
  - intros evs Hevs Hfailed. rewrite Htr in Hevs. apply app_inv_head in Hevs as <-.
    apply error_failed_process_events in Hfailed. congruence.
Qed.
End shown.

(** *** Native extraction, page by page *)

Lemma extract_calls_app l1 l2 :
  extract_calls (l1 ++ l2) = extract_calls l1 ++ extract_calls l2.
Proof. apply omap_app. Qed.

Lemma messages_app l1 l2 : messages (l1 ++ l2) = messages l1 ++ messages l2.
Proof. apply omap_app. Qed.

Lemma extract_calls_native_events pages i :
  extract_calls (native_events pages i) = seq i (attempted pages).
Proof.
  revert i. induction pages as [|[?|?] rest IH]; intros i; [done| |done].
  unfold extract_calls in *. simpl. by rewrite IH.
Qed.

Lemma messages_native_events pages i : messages (native_events pages i) = [].
Proof.
  revert i. induction pages as [|[?|?] rest IH]; intros i; [done| |done].
  unfold messages in *. simpl. by rewrite IH.
Qed.

Lemma first_raise_app {A} (before : list (outcome A)) e after :
  first_raise before = None →
  first_raise (before ++ Raise e :: after) = Some e
  ∧ attempted (before ++ Raise e :: after) = S (length before).
Proof.
  induction before as [|[?|?] before IH]; simpl; [done| |done].
  intros H. destruct (IH H) as [-> ->]. done.
Qed.

Section native_pages.
Context (w : World) (tmp : path).

(** X13. Native extraction has no per-page isolation. When the text-layer
    reader raises on a page, the pages after it are never read, the text
    gathered from the pages before it is thrown away, and the only message
    is the warning with that exception. *)
Theorem native_extraction_stops_at_first_failure s before e after :
  let s1 := exec (native_extraction w tmp) s in
  native_pages w tmp s = Ret (before ++ Raise e :: after) →
  first_raise before = None →
  result (native_extraction w tmp) s = Ret ()
  ∧ extracted_text s1 = []
  ∧ extract_calls (trace s1)
    = extract_calls (trace s) ++ seq 0 (S (length before))
  ∧ messages (trace s1) = messages (trace s) ++ [warning_native e].
Proof.
  cbv zeta. intros Hpages Hbefore.
  destruct (first_raise_app before e after Hbefore) as [Hraise Hatt].
  unfold result, exec. rewrite native_extraction_run.
  cbn [fst snd trace extracted_text]. unfold native_text, native_trace.
  rewrite Hpages, Hraise. split_and!; try done.
  - rewrite extract_calls_app. f_equal.
    change (extract_calls (native_events (before ++ Raise e :: after) 0
                           ++ [Ui (warning_native e)])
            = seq 0 (S (length before))).
    rewrite extract_calls_app, extract_calls_native_events, Hatt.
    by rewrite app_nil_r.
  - rewrite messages_app. f_equal.
    change (messages (native_events (before ++ Raise e :: after) 0
                      ++ [Ui (warning_native e)])
            = [warning_native e]).
    by rewrite messages_app, messages_native_events.
Qed.
End native_pages.

(** *** The status messages *)

Section status.
Context (w : World) {doc : Type} `{!FPDF doc}.
Context (cfg : Config) (up : Upload) (tmp : path).

Lemma success_native_shown s :
  Ui success_native ∈ process_events w cfg up tmp s →
  fallback_all_pages cfg = false ∧ 100 < len (strip (native_text w tmp s)).
Proof.
  intros Hin.
  assert (Forall (λ ev, ev = Ui success_native →
            fallback_all_pages cfg = false
            ∧ 100 < len (strip (native_text w tmp s)))
          (process_events w cfg up tmp s)) as HF.
  { unfold process_events. rewrite !Forall_app. split_and!.
    - apply Forall_strategy_a; done.
    - apply Forall_fallback_trace; done.
    - by repeat constructor.
    - apply Forall_show_trace; done. }
  eapply Forall_forall in HF; [|exact Hin]. by apply HF.
Qed.

Lemma warning_switch_shown s :
  Ui warning_switch_ocr ∈ process_events w cfg up tmp s →
  fallback_triggered cfg (after_native w cfg tmp s) = true.
Proof.
  intros Hin.
  assert (Forall (λ ev, ev = Ui warning_switch_ocr →
            fallback_triggered cfg (after_native w cfg tmp s) = true)
          (process_events w cfg up tmp s)) as HF.
  { unfold process_events. rewrite !Forall_app. split_and!.
    - apply Forall_strategy_a; done.
    - destruct (fallback_triggered cfg (after_native w cfg tmp s)) eqn:Htrig.
      + apply Forall_forall. done.
      + unfold fallback_trace. rewrite Htrig. constructor.
    - by repeat constructor.
    - apply Forall_show_trace; done. }
  eapply Forall_forall in HF; [|exact Hin]. by apply HF.
Qed.

(** X14. A run never shows both the message that text-based extraction
    succeeded and the warning that it switches to OCR. *)
Theorem status_messages_are_exclusive s :
  ∃ evs, trace (exec (process w cfg up tmp) s) = trace s ++ evs
         ∧ ¬ (Ui success_native ∈ evs ∧ Ui warning_switch_ocr ∈ evs).
Proof.
  destruct (process_exact w cfg up tmp s) as [_ Htr].
  eexists. split; [exact Htr|]. intros [Hsucc Hwarn].
  apply success_native_shown in Hsucc as [Hforce Hlen].
  apply warning_switch_shown in Hwarn.
  unfold fallback_triggered in Hwarn. rewrite after_native_run in Hwarn.
  cbn [extracted_text] in Hwarn. rewrite Hforce, orb_false_r in Hwarn.
  apply Nat.ltb_lt in Hwarn. lia.
Qed.
End status.

(** *** The preflight and the re-rendering, once more *)

(** X15. The preflight writes under a fixed name: once the file can be
    opened for writing, whatever [test.pdf] held in the temporary
    directory before the probe is gone after it, the path being absent,
    empty, or holding the synthetic document. *)
Theorem preflight_overwrites_test_pdf w custom_path s :
  let m := fs (exec (is_poppler_installed w custom_path) s) in
  io_fault w IoOpenW (test_file w) = None →
  m !! test_file w = None
  ∨ m !! test_file w = Some []
  ∨ m !! test_file w = Some test_pdf.
Proof.
  cbv zeta. intros Hopen.
  destruct (is_poppler_installed_run w custom_path s) as [_ ->].
  unfold preflight_fs, no_fault. rewrite Hopen. cbn [negb].
  destruct (io_fault w IoWrite (test_file w)); cbn [negb].
  - right. left. apply lookup_insert_eq.
  - destruct (preflight_passes w custom_path).
    + left. apply lookup_delete_eq.
    + right. right. apply lookup_insert_eq.
Qed.

Section blank_lines.
Context {doc : Type} `{!FPDF doc}.

Lemma render_lines_filter lines d :
  render_lines lines d = render_lines (List.filter truthy lines) d.
Proof.
  revert d. induction lines as [|line rest IH]; intros d; [done|].
  destruct line as [|c line]; simpl.
  - unfold render_line. simpl. unfold py_bind at 1. simpl. apply IH.
  - unfold py_bind. destruct (render_line (c :: line) d) as [[[]|e] d']; [|done].
    apply IH.
Qed.

(** X16. The re-rendered PDF ignores empty lines: two texts with the same
    non-empty lines, in the same order, give the same result, whether the
    bytes returned or the exception raised. *)
Theorem empty_lines_are_not_rendered text1 text2 title :
  List.filter truthy (split_nl text1) = List.filter truthy (split_nl text2) →
  create_pdf_from_text text1 title = create_pdf_from_text text2 title.
Proof.
  intros Hlines. unfold create_pdf_from_text, create_pdf_body, result.
  rewrite !(bind_total (method _)) by apply total_method.
  unfold py_bind at 1 6.
  destruct (cell 200 10 title _) as [[[]|e] d]; [|done].
  rewrite !(bind_total (method _)) by apply total_method.
  unfold py_bind at 1 3.
  by rewrite (render_lines_filter (split_nl text1)),
    (render_lines_filter (split_nl text2)), Hlines.
Qed.
End blank_lines.

Section unreadable.
Context (w : World) {doc : Type} `{!FPDF doc}.
Context (cfg : Config) (up : Upload) (tmp : path).

(** X17. A temporary copy that cannot be read back only degrades the run.
    The page-count probe and native extraction each end in a warning with
    that error, the accumulator is empty, the fallback condition holds,
    and since the upload is rasterized from the bytes in memory, a
    passing preflight still leads to the OCR output. *)
Theorem unreadable_copy_falls_back_to_ocr s e :
  let s1 := after_native w cfg tmp s in
  let s' := exec (process w cfg up tmp) s in
  io_fault w IoRead tmp = Some e → fallback_all_pages cfg = false →
  extracted_text s1 = []
  ∧ messages (trace s1)
    = messages (trace s) ++ [warning_page_count e; warning_native e]
  ∧ fallback_triggered cfg s1 = true
  ∧ (preflight_passes w (pp cfg) = true →
     extracted_text s' = ocr_output w cfg up).
Proof.
  cbv zeta. intros Hread Hforce.
  assert (extracted_text (after_native w cfg tmp s) = []) as Ht.
  { rewrite after_native_run, Hforce. cbn [extracted_text].
    unfold native_text, native_pages, read_result. by rewrite Hread. }
  assert (fallback_triggered cfg (after_native w cfg tmp s) = true) as Htrig.
  { unfold fallback_triggered. by rewrite Ht. }
  split_and!; [done| |done|].
  - rewrite after_native_run. cbn [trace]. rewrite messages_app. f_equal.
    unfold strategy_a_trace, probe_trace, native_trace, native_pages, read_result.
    by rewrite Hforce, Hread.
  - intros Hpass. rewrite process_text_selected. by rewrite Htrig, Hpass.
Qed.
End unreadable.

(** *** The properties above on concrete runs *)

(** X1, on a machine without Poppler: the user's notes are untouched. *)
Lemma run_touches_two_files_only_witness :
  fs (exec (main no_poppler default_config (Some hello_pdf)) cluttered)
    !! lit "/home/user/notes.txt" = Some (blit "notes").
Proof.
  etrans.
  - apply (run_touches_two_files_only no_poppler default_config
             (Some hello_pdf) cluttered (lit "/home/user/notes.txt"));
      vm_compute; discriminate.
  - vm_compute. reflexivity.
Defined.

(** X2, on the upload with a text layer. *)
Lemma uploaded_bytes_reach_the_readers_witness :
  ∃ s0,
    main text_layer default_config (Some hello_pdf) cluttered
    = process text_layer default_config hello_pdf
        (named_temporary_file text_layer) s0
    ∧ result (read text_layer (named_temporary_file text_layer)) s0
      = Ret (file_bytes hello_pdf).
Proof.
  destruct (uploaded_bytes_reach_the_readers text_layer default_config
              hello_pdf cluttered eq_refl eq_refl eq_refl)
    as (s0 & H1 & H2 & _).
  exists s0. by split.
Defined.

(** X4, on the full disk. *)
Lemma failed_copy_aborts_the_run_witness :
  result (main disk_full default_config (Some hello_pdf)) fresh
  = Raise "OSError"
  ∧ fs (exec (main disk_full default_config (Some hello_pdf)) fresh)
      !! named_temporary_file disk_full = Some [].
Proof.
  destruct (failed_copy_aborts_the_run disk_full default_config hello_pdf
              fresh "OSError" eq_refl eq_refl) as (H1 & _ & H3).
  by split.
Defined.

(** X8, on the blank scan: the one OCR call is the fourteenth event of
    the run, and the preflight is among those before it. *)
Lemma preflight_precedes_ocr_witness :
  preflight_passes blank_scan (pp default_config) = true
  ∧ Preflight (pp default_config)
    ∈ take 12 (drop 1 (trace (exec (process blank_scan default_config hello_pdf
                                      (named_temporary_file blank_scan))
                                (uploaded blank_scan hello_pdf)))).
Proof.
  destruct (preflight_precedes_ocr blank_scan default_config hello_pdf
              (named_temporary_file blank_scan) (uploaded blank_scan hello_pdf)
              (take 12 (drop 1 (trace (exec (process blank_scan default_config
                  hello_pdf (named_temporary_file blank_scan))
                  (uploaded blank_scan hello_pdf)))))
              1%N eng
              (drop 14 (trace (exec (process blank_scan default_config
                  hello_pdf (named_temporary_file blank_scan))
                  (uploaded blank_scan hello_pdf)))))
    as (_ & H2 & _ & H4 & _).
  - vm_compute. reflexivity.
  - by split.
Defined.

(** X10, on an upload whose name is outside Latin-1: the title makes the
    output of the PDF raise, the native text is shown all the same. *)
Lemma pdf_failure_keeps_the_text_download_witness :
  result (process text_layer default_config chinese_pdf
            (named_temporary_file text_layer))
    (uploaded text_layer chinese_pdf) = Ret ()
  ∧ presented
      (trace (exec (process text_layer default_config chinese_pdf
                      (named_temporary_file text_layer))
                (uploaded text_layer chinese_pdf)))
    = [page_chunk 0 (concat (replicate 10 (lit "Hello World ")))].
Proof.
  destruct (pdf_failure_keeps_the_text_download text_layer default_config
              chinese_pdf (named_temporary_file text_layer)
              (uploaded text_layer chinese_pdf) "UnicodeEncodeError")
    as (H1 & H2 & _).
  - vm_compute. reflexivity.
  - vm_compute. reflexivity.
  - split; [exact H1|]. etrans; [exact H2|]. vm_compute. reflexivity.
Defined.

(** X11, on the upload Poppler cannot rasterize: the "Hello" of the text
    layer is lost. *)
Lemma failed_rasterization_leaves_nothing_witness :
  extracted_text
    (after_native corrupt_upload default_config
       (named_temporary_file corrupt_upload) (uploaded corrupt_upload hello_pdf))
  = page_chunk 0 (lit "Hello")
  ∧ extracted_text
      (exec (process corrupt_upload default_config hello_pdf
               (named_temporary_file corrupt_upload))
         (uploaded corrupt_upload hello_pdf)) = [].
Proof.
  split; [vm_compute; reflexivity|].
  by apply (failed_rasterization_leaves_nothing corrupt_upload default_config
              hello_pdf (named_temporary_file corrupt_upload)
              (uploaded corrupt_upload hello_pdf) "PDFPageCountError").
Defined.

(** X12, on the blank scan: the empty OCR result is shown as the page
    marker alone. *)
Lemma an_appended_page_is_always_shown_witness :
  presented
    (trace (exec (process blank_scan default_config hello_pdf
                    (named_temporary_file blank_scan))
              (uploaded blank_scan hello_pdf)))
  = [page_marker 0].
Proof.
  assert (1%N ∈ [1%N]) as Hin by (apply elem_of_cons; by left).
  destruct (an_appended_page_is_always_shown blank_scan default_config
              hello_pdf (named_temporary_file blank_scan)
              (uploaded blank_scan hello_pdf) [1%N] 1%N []
              eq_refl eq_refl eq_refl Hin eq_refl)
    as (H1 & _ & H3 & _).
  etrans; [exact H3|]. rewrite H1. vm_compute. reflexivity.
Defined.

(** X13, on the upload whose second page cannot be read: pages 1 and 2
    are tried, page 3 never. *)
Lemma native_extraction_stops_at_first_failure_witness :
  extract_calls
    (trace (exec (native_extraction broken_second_page
                    (named_temporary_file broken_second_page))
              (uploaded broken_second_page hello_pdf)))
  = [0; 1]
  ∧ extracted_text
      (exec (native_extraction broken_second_page
               (named_temporary_file broken_second_page))
         (uploaded broken_second_page hello_pdf)) = [].
Proof.
  destruct (native_extraction_stops_at_first_failure broken_second_page
              (named_temporary_file broken_second_page)
              (uploaded broken_second_page hello_pdf)
              [Ret (Some (lit "Hello"))] "PDFSyntaxError"
              [Ret (Some (lit "never read"))] eq_refl eq_refl)
    as (_ & H2 & H3 & _).
  by split.
Defined.

(** X15, on a temporary directory that held an older [test.pdf]. *)
Lemma preflight_overwrites_test_pdf_witness :
  fs cluttered !! test_file no_poppler = Some (blit "an older file")
  ∧ (fs (exec (is_poppler_installed no_poppler None) cluttered)
       !! test_file no_poppler = None
     ∨ fs (exec (is_poppler_installed no_poppler None) cluttered)
         !! test_file no_poppler = Some []
     ∨ fs (exec (is_poppler_installed no_poppler None) cluttered)
         !! test_file no_poppler = Some test_pdf).
Proof.
  split; [vm_compute; reflexivity|].
  by apply (preflight_overwrites_test_pdf no_poppler None cluttered).
Defined.

(** X16, on two texts that differ in their empty lines only. *)
Lemma empty_lines_are_not_rendered_witness :
  create_pdf_from_text (doc:=pystr)
    (lit "first" ++ [NL; NL; NL] ++ lit "second") (lit "Title")
  = create_pdf_from_text (doc:=pystr)
      (lit "first" ++ [NL] ++ lit "second" ++ [NL]) (lit "Title").
Proof.
  apply (empty_lines_are_not_rendered (doc:=pystr)). vm_compute. reflexivity.
Defined.

(** X17, on the machine that cannot read the copy back. *)
Lemma unreadable_copy_falls_back_to_ocr_witness :
  extracted_text
    (exec (process unreadable_copy default_config hello_pdf
             (named_temporary_file unreadable_copy))
       (uploaded unreadable_copy hello_pdf))
  = page_chunk 0 (lit "recognized text").
Proof.
  destruct (unreadable_copy_falls_back_to_ocr unreadable_copy default_config
              hello_pdf (named_temporary_file unreadable_copy)
              (uploaded unreadable_copy hello_pdf) "PermissionError"
              eq_refl eq_refl)
    as (_ & _ & _ & H4).
  etrans; [apply H4; reflexivity|]. vm_compute. reflexivity.
Defined.
